(** * HocrConverter: hOCR to searchable PDF, a shallow embedding

    The Python 2 class [HocrConverter] of [HocrConverter.py] is embedded
    function by function.

    - Python values that a variable of [to_pdf] can hold ([None], an [int],
      a [float]) are the type [pyval]; [/] is Python 2 division: floor
      division on two ints, float division as soon as one operand is a
      float, [ZeroDivisionError] on a zero divisor.
    - Float arithmetic is an interface, [FloatArith], with two instances:
      [binary64] (IEEE 754 doubles, what CPython computes with) and
      [rational] (exact rationals, the reading without rounding in which the
      geometric identities are stated).
    - Exceptions are the type [exn]; a computation that can raise returns a
      [result].  [print] statements append to a log.
    - An [xml.etree] element is the record [Element]; its [attrib] dict is a
      [gmap string string].  Strings are strings of 8-bit characters
      (Python 2 [str]); on such text [encode('utf-8')] of ASCII is the
      identity. *)

From Stdlib Require Import ZArith QArith Qfield Lqa Floats.
From Stdlib Require Import String Ascii List Lia.
From stdpp Require Import gmap strings.
Import ListNotations.

Local Open Scope string_scope.
Local Open Scope list_scope.
Local Open Scope Z_scope.

(** ** Exceptions *)

Inductive exn : Type :=
| KeyError
| ZeroDivisionError
| AttributeError
| TypeError
| ValueError
| IndexError
| OverflowError.

Inductive result (A : Type) : Type :=
| Ok (a : A)
| Raise (e : exn).

Arguments Ok {A} a.
Arguments Raise {A} e.

Definition bind {A B : Type} (r : result A) (k : A -> result B) : result B :=
  match r with
  | Ok a => k a
  | Raise e => Raise e
  end.

Notation "x <- r ;; k" := (bind r (fun x => k))
  (at level 100, r at next level, right associativity).

(** ** Character classes and string helpers *)

(** [\s] of a Python 2 pattern compiled without [re.UNICODE], which is also
    the whitespace of [str.split()] and [str.rstrip()]:
    space, [\t], [\n], [\v], [\f], [\r]. *)
Definition is_space (c : ascii) : bool :=
  let n := N_of_ascii c in
  (n =? 32)%N || ((9 <=? n)%N && (n <=? 13)%N).

(** [\d] without [re.UNICODE]: the characters 0 to 9. *)
Definition is_digit (c : ascii) : bool :=
  let n := N_of_ascii c in
  (48 <=? n)%N && (n <=? 57)%N.

Definition digit_value (c : ascii) : Z := Z.of_N (N_of_ascii c) - 48.

Definition is_empty (s : string) : bool :=
  match s with
  | EmptyString => true
  | String _ _ => false
  end.

(** All characters of [s] satisfy [p]. *)
Fixpoint all_chars (p : ascii -> bool) (s : string) : bool :=
  match s with
  | EmptyString => true
  | String c s' => p c && all_chars p s'
  end.

(** The longest prefix of [s] whose characters satisfy [p], and the rest:
    what a greedy [c+] or [c*] consumes. *)
Fixpoint span (p : ascii -> bool) (s : string) : string * string :=
  match s with
  | EmptyString => (EmptyString, EmptyString)
  | String c s' =>
      if p c then let '(a, b) := span p s' in (String c a, b)
      else (EmptyString, s)
  end.

Fixpoint strip_prefix (pre s : string) : option string :=
  match pre, s with
  | EmptyString, _ => Some s
  | String a pre', String b s' =>
      if Ascii.eqb a b then strip_prefix pre' s' else None
  | String _ _, EmptyString => None
  end.

(** ** The bounding-box pattern [bbox((\s+\d+){4})]

    [\s] and [\d] are disjoint classes, so backtracking never finds a match
    that the greedy run misses: giving back a whitespace character leaves a
    whitespace character where a digit is required, and giving back a digit
    leaves a digit where whitespace (or nothing of the pattern) follows.
    The matcher below therefore takes maximal runs. *)

(** One repetition of [(\s+\d+)] at the start of [s]: the text matched and
    what follows it. *)
Definition match_group (s : string) : option (string * string) :=
  let '(ws, s1) := span is_space s in
  if is_empty ws then None
  else
    let '(ds, s2) := span is_digit s1 in
    if is_empty ds then None else Some (ws +:+ ds, s2).

(** [(\s+\d+){n}] at the start of [s]. *)
Fixpoint match_groups (n : nat) (s : string) : option (string * string) :=
  match n with
  | O => Some (EmptyString, s)
  | S n' =>
      match match_group s with
      | None => None
      | Some (g, s') =>
          match match_groups n' s' with
          | None => None
          | Some (gs, s'') => Some (g +:+ gs, s'')
          end
      end
  end.

(** The pattern anchored at the start of [s]; the result is [group(1)]. *)
Definition match_here (s : string) : option string :=
  match strip_prefix "bbox" s with
  | None => None
  | Some s' => option_map fst (match_groups 4 s')
  end.

(** [boxPattern.search(s)]: the match at the leftmost position that has
    one; the result is [matches.group(1)]. *)
Fixpoint boxPattern_search (s : string) : option string :=
  match match_here s with
  | Some g => Some g
  | None =>
      match s with
      | EmptyString => None
      | String _ s' => boxPattern_search s'
      end
  end.

(** [s.split()]: the maximal runs of non-whitespace characters.  [cur] is
    the run being read. *)
Fixpoint split_from (cur s : string) : list string :=
  match s with
  | EmptyString => if is_empty cur then [] else [cur]
  | String c s' =>
      if is_space c then
        if is_empty cur then split_from EmptyString s'
        else cur :: split_from EmptyString s'
      else split_from (cur +:+ String c EmptyString) s'
  end.

Definition split (s : string) : list string := split_from EmptyString s.

Fixpoint int_from (acc : Z) (s : string) : result Z :=
  match s with
  | EmptyString => Ok acc
  | String c s' =>
      if is_digit c then int_from (10 * acc + digit_value c) s'
      else Raise ValueError
  end.

(** [int(s)] on an unsigned decimal literal; anything else raises
    [ValueError] here (Python also accepts a sign and surrounding blanks,
    which [split] of a match of the pattern never produces). *)
Definition int (s : string) : result Z :=
  if is_empty s then Raise ValueError else int_from 0 s.

(** [l[i]] on a Python list. *)
Definition getitem {A : Type} (l : list A) (i : nat) : result A :=
  match nth_error l i with
  | Some a => Ok a
  | None => Raise IndexError
  end.

(** ** Elements of the parsed document *)

#[local] Unset Elimination Schemes.
Inductive Element : Type :=
  mkElement {
    tag : string;
    attrib : gmap string string;
    text : option string;
    tail : option string;
    getchildren : list Element
  }.
#[local] Set Elimination Schemes.

(** Induction on an element with the property known for its children. *)
Fixpoint Element_children_ind (P : Element -> Prop)
  (step : forall element, Forall P (getchildren element) -> P element)
  (element : Element) : P element :=
  step element
    ((fix children_ok (l : list Element) : Forall P l :=
        match l with
        | [] => List.Forall_nil P
        | c :: l' =>
            List.Forall_cons P c l' (Element_children_ind P step c)
                             (children_ok l')
        end) (getchildren element)).

(** [element_coordinates(element)] *)
Definition element_coordinates (element : Element) : result (Z * Z * Z * Z) :=
  match attrib element !! "title" with
  | Some title =>
      match boxPattern_search title with
      | Some group1 =>
          let coords := split group1 in
          c0 <- getitem coords 0 ;; x0 <- int c0 ;;
          c1 <- getitem coords 1 ;; y0 <- int c1 ;;
          c2 <- getitem coords 2 ;; x1 <- int c2 ;;
          c3 <- getitem coords 3 ;; y1 <- int c3 ;;
          Ok (x0, y0, x1, y1)
      | None => Ok (0, 0, 0, 0)
      end
  | None => Ok (0, 0, 0, 0)
  end.

(** [d[k]] on a dict. *)
Definition dict_getitem (d : gmap string string) (k : string) : result string :=
  match d !! k with
  | Some v => Ok v
  | None => Raise KeyError
  end.

(** [element.iter()]: the element and its descendants in document order. *)
Fixpoint iter (element : Element) : list Element :=
  element :: flat_map iter (getchildren element).

(** [findall(".//" + name)] on the tree with root [root]: the proper
    descendants of the root whose tag is [name], in document order (the
    root itself is never selected by a [.//] path). *)
Definition findall (root : Element) (name : string) : list Element :=
  List.filter (fun e => String.eqb (tag e) name)
              (flat_map iter (getchildren root)).

(** [find(".//" + name)]: the first element of [findall], or [None]. *)
Definition find (root : Element) (name : string) : option Element :=
  head (findall root name).

(** Truth value of an element: [Element.__len__] (and [__nonzero__] of
    Python 2.7) is the number of children, so an element without children
    is false. *)
Definition element_bool (element : Element) : bool :=
  match getchildren element with
  | [] => false
  | _ :: _ => true
  end.

Definition or_empty (o : option string) : string :=
  match o with
  | Some s => s
  | None => EmptyString
  end.

(** [_get_element_text(element)] *)
Fixpoint _get_element_text (element : Element) : string :=
  or_empty (text element)
  +:+ fold_right (fun child acc => _get_element_text child +:+ acc)
                 EmptyString (getchildren element)
  +:+ or_empty (tail element).

(** [s.rstrip()] *)
Fixpoint rstrip (s : string) : string :=
  match s with
  | EmptyString => EmptyString
  | String c s' =>
      let r := rstrip s' in
      if is_empty r && is_space c then EmptyString else String c r
  end.

(** The converter object: [self.hocr] holds the root of the parsed tree
    (or [None]), [self.xmlns] the namespace prefix. *)
Record HocrConverter : Type :=
  mkHocrConverter {
    hocr : option Element;
    xmlns : string
  }.

(** [__str__(self)]; the final [encode('utf-8')] leaves a string of
    8-bit characters as it is. *)
Definition __str__ (self : HocrConverter) : string :=
  match hocr self with
  | None => EmptyString
  | Some root =>
      match find root (xmlns self +:+ "body") with
      | Some body =>
          if element_bool body then _get_element_text body else EmptyString
      | None => EmptyString
      end
  end.

(** ** Numbers *)

(** Float arithmetic as the code uses it.  [of_int z] is [float(z)];
    [int_fits z] is false when that conversion raises [OverflowError];
    [is_zero x] is [x == 0.0]. *)
Class FloatArith : Type :=
  mkFloatArith {
    F : Type;
    of_int : Z -> F;
    int_fits : Z -> bool;
    fsub : F -> F -> F;
    fmul : F -> F -> F;
    fdiv : F -> F -> F;
    is_zero : F -> bool
  }.

(** IEEE 754 binary64 with round to nearest, ties to even: CPython's
    [float]. *)
Definition binary64_of_Z (z : Z) : spec_float :=
  binary_normalize prec emax z 0 false.

Definition binary64 : FloatArith :=
  {|
    F := float;
    of_int := fun z => SF2Prim (binary64_of_Z z);
    int_fits := fun z =>
      match binary64_of_Z z with
      | S754_infinity _ => false
      | _ => true
      end;
    fsub := PrimFloat.sub;
    fmul := PrimFloat.mul;
    fdiv := PrimFloat.div;
    is_zero := fun x => PrimFloat.eqb x PrimFloat.zero
  |}.

(** Exact rational arithmetic: the same operations without rounding. *)
Definition rational : FloatArith :=
  {|
    F := Q;
    of_int := inject_Z;
    int_fits := fun _ => true;
    fsub := Qminus;
    fmul := Qmult;
    fdiv := Qdiv;
    is_zero := fun x => Qeq_bool x 0
  |}.

Section Numbers.

Context {FA : FloatArith}.

(** What a numeric variable of [to_pdf] holds. *)
Inductive pyval : Type :=
| PNone
| PInt (z : Z)
| PFloat (x : F).

(** The operand of a float operation, converted as [float_div] and its
    siblings convert it. *)
Definition to_float (v : pyval) : result F :=
  match v with
  | PNone => Raise TypeError
  | PInt z => if int_fits z then Ok (of_int z) else Raise OverflowError
  | PFloat x => Ok x
  end.

(** [float(v)] *)
Definition pyfloat (v : pyval) : result pyval :=
  x <- to_float v ;; Ok (PFloat x).

(** [a / b] without [from __future__ import division]. *)
Definition pydiv (a b : pyval) : result pyval :=
  match a, b with
  | PNone, _ | _, PNone => Raise TypeError
  | PInt x, PInt y =>
      if y =? 0 then Raise ZeroDivisionError else Ok (PInt (x / y))
  | _, _ =>
      x <- to_float a ;;
      y <- to_float b ;;
      if is_zero y then Raise ZeroDivisionError else Ok (PFloat (fdiv x y))
  end.

(** [a * b] *)
Definition pymul (a b : pyval) : result pyval :=
  match a, b with
  | PNone, _ | _, PNone => Raise TypeError
  | PInt x, PInt y => Ok (PInt (x * y))
  | _, _ => x <- to_float a ;; y <- to_float b ;; Ok (PFloat (fmul x y))
  end.

(** [a - b] *)
Definition pysub (a b : pyval) : result pyval :=
  match a, b with
  | PNone, _ | _, PNone => Raise TypeError
  | PInt x, PInt y => Ok (PInt (x - y))
  | _, _ => x <- to_float a ;; y <- to_float b ;; Ok (PFloat (fsub x y))
  end.

(** [reportlab.lib.units.inch], 72.0 points. *)
Definition inch : pyval := PFloat (of_int 72).

End Numbers.

(** A float value of each instance. *)
Definition PDouble (x : float) : @pyval binary64 := @PFloat binary64 x.
Definition PRational (q : Q) : @pyval rational := @PFloat rational q.

(** ** The image and the PDF canvas *)

Section Conversion.

Context {FA : FloatArith}.

(** [pdf.stringWidth(text, fontname, fontsize)] of reportlab: the width
    of the text in points at the given font and size. *)
Variable stringWidth : string -> string -> pyval -> F.

(** The decoded image: [im.size] and [im.info['dpi']] when the key is
    present. *)
Record Image : Type :=
  mkImage {
    im_size : Z * Z;
    im_info_dpi : option (pyval * pyval)
  }.

(** The local variables [width], [height] and [ocr_dpi] of [to_pdf]. *)
Record Geometry : Type :=
  mkGeometry {
    width : pyval;
    height : pyval;
    ocr_dpi : pyval * pyval
  }.

(** One text object as it is drawn: [setFont], [setTextRenderMode],
    [setTextOrigin], [setHorizScale], [textLine]. *)
Record TextObject : Type :=
  mkTextObject {
    font : string * pyval;
    render_mode : Z;
    origin : pyval * pyval;
    horiz_scale : pyval;
    line_text : string
  }.

(** What the canvas has received when [save] is called. *)
Record Pdf : Type :=
  mkPdf {
    pagesize : pyval * pyval;
    image_box : pyval * pyval;
    texts : list TextObject
  }.

Definition warn_no_hocr : string :=
  "Warning: No hOCR file specified. PDF will be image-only.".

Definition warn_no_dpi (imageFileName : string) : string :=
  "Warning: DPI unavailable for image " +:+ imageFileName
  +:+ ". Assuming 96 DPI.".

(** Lines 100 to 107: the page size from the image's own resolution. *)
Definition image_page_size (im : Image) : result (pyval * pyval) :=
  match im_info_dpi im with
  | Some (dpi0, dpi1) =>
      fw <- pyfloat (PInt (fst (im_size im))) ;;
      w <- pydiv fw dpi0 ;;
      fh <- pyfloat (PInt (snd (im_size im))) ;;
      h <- pydiv fh dpi1 ;;
      Ok (w, h)
  | None => Ok (PNone, PNone)
  end.

(** Lines 116 to 124: the body of the [if] on an [ocr_page] division. *)
Definition use_ocr_page (div : Element) (g : Geometry) : result Geometry :=
  coords <- element_coordinates div ;;
  let '(c0, c1, c2, c3) := coords in
  let ocrwidth := c2 - c0 in
  let ocrheight := c3 - c1 in
  wh <- match width g with
        | PNone =>
            w <- pydiv (PInt ocrwidth) (PInt 300) ;;
            h <- pydiv (PInt ocrheight) (PInt 300) ;;
            Ok (w, h)
        | _ => Ok (width g, height g)
        end ;;
  d0 <- pydiv (PInt ocrwidth) (fst wh) ;;
  d1 <- pydiv (PInt ocrheight) (snd wh) ;;
  Ok {| width := fst wh; height := snd wh; ocr_dpi := (d0, d1) |}.

(** Lines 114 to 125: the loop over the divisions, left at the first
    [ocr_page] by [break]. *)
Fixpoint ocr_page_loop (divs : list Element) (g : Geometry)
  : result Geometry :=
  match divs with
  | [] => Ok g
  | div :: rest =>
      cls <- dict_getitem (attrib div) "class" ;;
      if String.eqb cls "ocr_page" then use_ocr_page div g
      else ocr_page_loop rest g
  end.

(** Lines 95 to 132: everything that decides [width], [height] and
    [ocr_dpi], with what is printed on the way. *)
Definition resolve_geometry (self : HocrConverter) (imageFileName : string)
  (im : Image) : list string * result Geometry :=
  let log := match hocr self with
             | None => [warn_no_hocr]
             | Some _ => []
             end in
  let scanned :=
    wh <- image_page_size im ;;
    let g := {| width := fst wh; height := snd wh;
                ocr_dpi := (PInt 300, PInt 300) |} in
    match hocr self with
    | Some root => ocr_page_loop (findall root (xmlns self +:+ "div")) g
    | None => Ok g
    end in
  match scanned with
  | Raise e => (log, Raise e)
  | Ok g =>
      match width g with
      | PNone =>
          (log ++ [warn_no_dpi imageFileName],
           fw <- pyfloat (PInt (fst (im_size im))) ;;
           w <- pydiv fw (PInt 96) ;;
           fh <- pyfloat (PInt (snd (im_size im))) ;;
           h <- pydiv fh (PInt 96) ;;
           Ok {| width := w; height := h; ocr_dpi := ocr_dpi g |})
      | _ => (log, Ok g)
      end
  end.

(** Line 149: the two arguments of [setTextOrigin]. *)
Definition text_origin (g : Geometry) (coords : Z * Z * Z * Z)
  : result (pyval * pyval) :=
  let '(c0, c1, c2, c3) := coords in
  f0 <- pyfloat (PInt c0) ;;
  q0 <- pydiv f0 (fst (ocr_dpi g)) ;;
  x <- pymul q0 inch ;;
  top <- pymul (height g) inch ;;
  f3 <- pyfloat (PInt c3) ;;
  q3 <- pydiv f3 (snd (ocr_dpi g)) ;;
  down <- pymul q3 inch ;;
  y <- pysub top down ;;
  Ok (x, y).

(** Line 152, the dividend: the width of the box in points. *)
Definition box_width_points (g : Geometry) (coords : Z * Z * Z * Z)
  : result pyval :=
  let '(c0, c1, c2, c3) := coords in
  f2 <- pyfloat (PInt c2) ;;
  q2 <- pydiv f2 (fst (ocr_dpi g)) ;;
  right <- pymul q2 inch ;;
  f0 <- pyfloat (PInt c0) ;;
  q0 <- pydiv f0 (fst (ocr_dpi g)) ;;
  left <- pymul q0 inch ;;
  pysub right left.

(** Line 152: the argument of [setHorizScale]. *)
Definition text_horiz_scale (g : Geometry) (coords : Z * Z * Z * Z)
  (line : Element) (fontname : string) (fontsize : pyval) : result pyval :=
  boxwidth <- box_width_points g coords ;;
  t <- match text line with
       | Some t => Ok (rstrip t)
       | None => Raise AttributeError
       end ;;
  ratio <- pydiv boxwidth (PFloat (stringWidth t fontname fontsize)) ;;
  pymul ratio (PInt 100).

(** Lines 143 to 156: one [ocr_line] span. *)
Definition draw_line (g : Geometry) (line : Element) (fontname : string)
  (fontsize : pyval) : result TextObject :=
  coords <- element_coordinates line ;;
  o <- text_origin g coords ;;
  sc <- text_horiz_scale g coords line fontname fontsize ;;
  t <- match text line with
       | Some t => Ok (rstrip t)
       | None => Raise AttributeError
       end ;;
  Ok {| font := (fontname, fontsize); render_mode := 3; origin := o;
        horiz_scale := sc; line_text := t |}.

(** Lines 141 to 156: the loop over the spans. *)
Fixpoint draw_lines (g : Geometry) (spans : list Element)
  (fontname : string) (fontsize : pyval) : result (list TextObject) :=
  match spans with
  | [] => Ok []
  | line :: rest =>
      cls <- dict_getitem (attrib line) "class" ;;
      if String.eqb cls "ocr_line" then
        obj <- draw_line g line fontname fontsize ;;
        objs <- draw_lines g rest fontname fontsize ;;
        Ok (obj :: objs)
      else draw_lines g rest fontname fontsize
  end.

(** Lines 135 to 160: the page, the image and the text layer. *)
Definition compose (self : HocrConverter) (g : Geometry)
  (fontname : string) (fontsize : pyval) : result Pdf :=
  pw <- pymul (width g) inch ;;
  ph <- pymul (height g) inch ;;
  iw <- pymul (width g) inch ;;
  ih <- pymul (height g) inch ;;
  objs <- match hocr self with
          | Some root =>
              draw_lines g (findall root (xmlns self +:+ "span"))
                         fontname fontsize
          | None => Ok []
          end ;;
  Ok {| pagesize := (pw, ph); image_box := (iw, ih); texts := objs |}.

(** [to_pdf(self, imageFileName, outFileName, fontname, fontsize)]: what
    is printed, and the document that is saved or the exception that
    ends the call. *)
Definition to_pdf (self : HocrConverter) (imageFileName : string)
  (im : Image) (fontname : string) (fontsize : pyval)
  : list string * result Pdf :=
  let '(log, r) := resolve_geometry self imageFileName im in
  (log, g <- r ;; compose self g fontname fontsize).

End Conversion.

(** ** The specification's reading of a bounding-box title *)

(** A non-empty run of whitespace. *)
Definition spaces (s : string) : Prop :=
  is_empty s = false /\ all_chars is_space s = true.

(** A non-empty run of decimal digits. *)
Definition digits (s : string) : Prop :=
  is_empty s = false /\ all_chars is_digit s = true.

Definition no_leading_digit (s : string) : Prop :=
  forall c r, s = String c r -> is_digit c = false.

(** The integer that a decimal numeral denotes, digit by digit with its
    power of ten. *)
Fixpoint decimal_value (s : string) : Z :=
  match s with
  | EmptyString => 0
  | String c s' =>
      digit_value c * 10 ^ Z.of_nat (String.length s') + decimal_value s'
  end.

(** [s] starts with the token [bbox] followed by the four
    whitespace-separated decimal integers [d0 d1 d2 d3] (whole numerals:
    the last one is not cut short before a further digit). *)
Definition box_match (s d0 d1 d2 d3 : string) : Prop :=
  exists w0 w1 w2 w3 rest,
    s = "bbox" +:+ w0 +:+ d0 +:+ w1 +:+ d1 +:+ w2 +:+ d2 +:+ w3 +:+ d3 +:+ rest
    /\ spaces w0 /\ spaces w1 /\ spaces w2 /\ spaces w3
    /\ digits d0 /\ digits d1 /\ digits d2 /\ digits d3
    /\ no_leading_digit rest.

(** The title has such a match at the end of [pre], and none further to
    the left. *)
Definition first_box_match (title pre d0 d1 d2 d3 : string) : Prop :=
  (exists s, title = pre +:+ s /\ box_match s d0 d1 d2 d3)
  /\ forall pre' s' e0 e1 e2 e3,
       title = pre' +:+ s' ->
       (String.length pre' < String.length pre)%nat ->
       ~ box_match s' e0 e1 e2 e3.

Definition no_box_match (title : string) : Prop :=
  forall pre s d0 d1 d2 d3, title = pre +:+ s -> ~ box_match s d0 d1 d2 d3.

(** ** The specification's text extraction *)

(** The specification's rule for one element: its leading text, each
    child's text by the same rule in child order, its tail. *)
Fixpoint spec_element_text (element : Element) : string :=
  String.concat EmptyString
    ([or_empty (text element)]
     ++ map spec_element_text (getchildren element)
     ++ [or_empty (tail element)]).

(** The specification's [extractText]: the rule applied to the [body]
    element, the empty string when there is none or no document. *)
Definition spec_extractText (self : HocrConverter) : string :=
  match hocr self with
  | None => EmptyString
  | Some root =>
      match find root (xmlns self +:+ "body") with
      | Some body => spec_element_text body
      | None => EmptyString
      end
  end.

(** [group(1)] of a match: the four groups, each its whitespace and its
    numeral. *)
Definition group_text (w0 d0 w1 d1 w2 d2 w3 d3 : string) : string :=
  (w0 +:+ d0) +:+ (w1 +:+ d1) +:+ (w2 +:+ d2) +:+ (w3 +:+ d3) +:+ EmptyString.

(** ** Elements by class *)

(** The element has a [class] attribute with the value [cls]. *)
Definition has_class (cls : string) (element : Element) : bool :=
  match attrib element !! "class" with
  | Some c => String.eqb c cls
  | None => false
  end.

(** The element has a [class] attribute, with another value than [cls]. *)
Definition other_class (cls : string) (element : Element) : Prop :=
  exists c, attrib element !! "class" = Some c /\ String.eqb c cls = false.

Definition divs (self : HocrConverter) : list Element :=
  match hocr self with
  | Some root => findall root (xmlns self +:+ "div")
  | None => []
  end.

Definition spans (self : HocrConverter) : list Element :=
  match hocr self with
  | Some root => findall root (xmlns self +:+ "span")
  | None => []
  end.

Definition ocr_pages (self : HocrConverter) : list Element :=
  List.filter (has_class "ocr_page") (divs self).

Definition ocr_lines (self : HocrConverter) : list Element :=
  List.filter (has_class "ocr_line") (spans self).

(** ** Rendering *)


(** ** Inputs of the examples *)

Definition element (t : string) (a : list (string * string))
  (tx : option string) (children : list Element) : Element :=
  mkElement t (list_to_map a) tx None children.

Definition line_hello : Element :=
  element "span" [("class", "ocr_line"); ("title", "bbox 100 100 400 130")]
          (Some "Hello") [].

Definition line_world : Element :=
  element "span" [("class", "ocr_line"); ("title", "bbox 100 200 500 230")]
          (Some "World, Test") [].

(** A line whose title has other properties around the box. *)
Definition line_with_properties : Element :=
  element "span"
    [("class", "ocr_line");
     ("title", "id 7; bbox 100 100 400 130; baseline 0 0")]
    (Some "Hello") [].

(** A page of 2550 by 3300 OCR pixels with the two lines of the
    specification's end-to-end example. *)
Definition letter_page : Element :=
  element "html" [] None
    [element "body" [] None
       [element "div"
          [("class", "ocr_page"); ("title", "bbox 0 0 2550 3300")] None
          [line_hello; line_world]]].

(** A body with text and no child element. *)
Definition text_only_page : Element :=
  element "html" [] None [element "body" [] (Some "Hello") []].

(** A line whose text is blank. *)
Definition blank_line_page : Element :=
  element "html" [] None
    [element "body" [] None
       [element "span"
          [("class", "ocr_line"); ("title", "bbox 100 100 400 130")]
          (Some " ") []]].

(** Two [ocr_page] divisions of different sizes. *)
Definition two_pages : Element :=
  element "html" [] None
    [element "body" [] None
       [element "div"
          [("class", "ocr_page"); ("title", "bbox 0 0 2550 3300")] None [];
        element "div"
          [("class", "ocr_page"); ("title", "bbox 0 0 1275 1650")] None []]].

(** An OCR page of 1275 by 1650 pixels, half the scan's pixel size. *)
Definition half_size_page : Element :=
  element "html" [] None
    [element "body" [] None
       [element "div"
          [("class", "ocr_page"); ("title", "bbox 0 0 1275 1650")] None []]].

(** A division without [class] after the [ocr_page] division. *)
Definition classless_div_after_page : Element :=
  element "html" [] None
    [element "body" [] None
       [element "div"
          [("class", "ocr_page"); ("title", "bbox 0 0 2550 3300")] None [];
        element "div" [] None []]].

(** A division without [class] before any [ocr_page] division. *)
Definition classless_div_first : Element :=
  element "html" [] None
    [element "body" [] None
       [element "div" [] None [];
        element "div"
          [("class", "ocr_page"); ("title", "bbox 0 0 2550 3300")] None []]].


(** A span without [class] after an [ocr_line] span. *)
Definition classless_span : Element :=
  element "html" [] None
    [element "body" [] None [line_hello; element "span" [] (Some "x") []]].

Section ExampleInputs.

Context {FA : FloatArith}.

(** The metric of a fixed-pitch font whose glyphs are 600/1000 of the
    font size wide, as reportlab's Courier. *)
Definition courier (t fontname : string) (fontsize : pyval) : F :=
  match to_float fontsize with
  | Ok x =>
      fmul (fdiv (of_int (600 * Z.of_nat (String.length t))) (of_int 1000)) x
  | Raise _ => of_int 0
  end.

(** A scan of 2550 by 3300 pixels that says it is at 300 DPI. *)
Definition scan_300dpi : Image :=
  {| im_size := (2550, 3300); im_info_dpi := Some (PInt 300, PInt 300) |}.

(** An image without resolution. *)
Definition bare_image (w h : Z) : Image :=
  {| im_size := (w, h); im_info_dpi := None |}.

End ExampleInputs.


(** ** Loading a document *)

(** [.] of a pattern compiled without [re.DOTALL]: any character but the
    newline. *)
Definition is_dot (c : ascii) : bool := negb (Ascii.eqb c "010").

(** A greedy [.*] followed by the literal [lit], at the start of [s]: the
    text that [.*] ends up with.  The longest run is tried first and given
    back character by character until [lit] follows. *)
Fixpoint dots_then (lit s : string) : option string :=
  let here := match strip_prefix lit s with
              | Some _ => Some EmptyString
              | None => None
              end in
  match s with
  | EmptyString => here
  | String c s' =>
      if is_dot c then
        match dots_then lit s' with
        | Some p => Some (String c p)
        | None => here
        end
      else here
  end.

(** [re.match('({.*})html', tag)]: the pattern anchored at the start of
    the tag (and not at its end); the result is [matches.group(1)]. *)
Definition xmlns_match (tag : string) : option string :=
  match tag with
  | String c s =>
      if Ascii.eqb c "{" then
        match dots_then "}html" s with
        | Some p => Some ("{" +:+ p +:+ "}")
        | None => None
        end
      else None
  | EmptyString => None
  end.

(** [parse_hocr(self, hocrFileName)], from the root of the tree that
    [ElementTree.parse] has read from the file (an exception of the parser
    leaves the method before line 79). *)
Definition parse_hocr (root : Element) : HocrConverter :=
  {| hocr := Some root;
     xmlns := match xmlns_match (tag root) with
              | Some group1 => group1
              | None => EmptyString
              end |}.

(** [__init__(self, hocrFileName)]: [parsed] is [None] when no file name
    is given, and the root read from the file otherwise. *)
Definition __init__ (parsed : option Element) : HocrConverter :=
  match parsed with
  | None => {| hocr := None; xmlns := EmptyString |}
  | Some root => parse_hocr root
  end.



(** ** The command line *)

Definition usage : string :=
  "Usage: python HocrConverter.py inputHocrFile inputImageFile outputPdfFile".

(** How the script ends: [sys.exit(status)], or the end of [to_pdf]. *)
Inductive Outcome (A : Type) : Type :=
| Exited (status : Z)
| Finished (r : result A).

Arguments Exited {A} status.
Arguments Finished {A} r.

Section CommandLine.

Context {FA : FloatArith}.
Variable stringWidth : string -> string -> pyval -> F.

(** The tree that [ElementTree.parse] reads from a file, and the image
    that [Image.open] decodes from one (a file that cannot be read ends
    the script with the exception of the library). *)
Variable ElementTree_parse : string -> Element.
Variable Image_open : string -> Image.

(** Lines 170 to 175, on [sys.argv]: what is printed and how the script
    ends. *)
Definition main (argv : list string) : list string * Outcome Pdf :=
  if (length argv <? 4)%nat then ([usage], Exited 1)
  else
    let hocr := __init__ (Some (ElementTree_parse (nth 1 argv EmptyString))) in
    let '(log, r) :=
      to_pdf stringWidth hocr (nth 2 argv EmptyString)
             (Image_open (nth 2 argv EmptyString)) "Courier" (PInt 8) in
    (log, Finished r).

End CommandLine.

(** ** What [to_pdf] may raise, and the values it computes with *)

Section Invariants.

Context {FA : FloatArith}.

(** The exceptions that [to_pdf] raises of its own. *)
Definition to_pdf_error (e : exn) : Prop :=
  e = KeyError \/ e = ZeroDivisionError \/ e = AttributeError
  \/ e = OverflowError.

(** The value is a number, not [None]. *)
Definition number (v : pyval) : Prop := v <> PNone.

(** All of the geometry is numbers. *)
Definition resolved (g : Geometry) : Prop :=
  number (width g) /\ number (height g)
  /\ number (fst (ocr_dpi g)) /\ number (snd (ocr_dpi g)).

(** The computation ends with a value that satisfies [P], or with one of
    the exceptions of [to_pdf]. *)
Definition fine {A : Type} (P : A -> Prop) (r : result A) : Prop :=
  match r with
  | Ok a => P a
  | Raise e => to_pdf_error e
  end.

End Invariants.

(** The length of the own text and tail of an element. *)
Definition own_text_length (element : Element) : nat :=
  (String.length (or_empty (text element))
   + String.length (or_empty (tail element)))%nat.

(** The string does not end with whitespace. *)
Definition no_trailing_space (s : string) : Prop :=
  forall p c, s = p +:+ String c EmptyString -> is_space c = false.

(** The division has a [class] attribute and is not an [ocr_page]: the
    loop of line 114 goes past it. *)
Definition passes_by (div : Element) : bool :=
  match attrib div !! "class" with
  | Some cls => negb (String.eqb cls "ocr_page")
  | None => false
  end.

(** An [ocr_page] division without a title, with one line. *)
Definition untitled_page : Element :=
  element "html" [] None
    [element "body" [] None
       [element "div" [("class", "ocr_page")] None [line_hello]]].

(** ** Facts about strings *)

Lemma app_cons (c : ascii) (s t : string) :
  String c s +:+ t = String c (s +:+ t).
Proof. reflexivity. Qed.

Lemma app_nil_l (s : string) : EmptyString +:+ s = s.
Proof. reflexivity. Qed.

Lemma app_nil_r (s : string) : s +:+ EmptyString = s.
Proof.
  induction s as [|c s IH]; [reflexivity|].
  rewrite app_cons, IH. reflexivity.
Qed.

Lemma app_assoc_s (s t u : string) : (s +:+ t) +:+ u = s +:+ t +:+ u.
Proof.
  induction s as [|c s IH]; [reflexivity|].
  rewrite !app_cons, IH. reflexivity.
Qed.

Lemma length_app_s (s t : string) :
  String.length (s +:+ t) = (String.length s + String.length t)%nat.
Proof.
  induction s as [|c s IH]; [reflexivity|].
  rewrite app_cons. simpl. rewrite IH. reflexivity.
Qed.

Lemma is_empty_false_app (s t : string) :
  is_empty s = false -> is_empty (s +:+ t) = false.
Proof. destruct s; [discriminate | reflexivity]. Qed.

Lemma is_empty_true (s : string) : is_empty s = true -> s = EmptyString.
Proof. destruct s; [reflexivity | discriminate]. Qed.

Lemma digit_not_space (c : ascii) : is_digit c = true -> is_space c = false.
Proof.
  unfold is_digit, is_space. intros H.
  apply andb_true_iff in H as [H1 H2].
  apply N.leb_le in H1. apply N.leb_le in H2.
  apply orb_false_iff. split.
  - apply N.eqb_neq. lia.
  - apply andb_false_iff. right. apply N.leb_gt. lia.
Qed.

Lemma all_chars_app (p : ascii -> bool) (s t : string) :
  all_chars p (s +:+ t) = all_chars p s && all_chars p t.
Proof.
  induction s as [|c s IH]; [reflexivity|].
  rewrite app_cons. simpl. rewrite IH, andb_assoc. reflexivity.
Qed.

(** [span] splits the string, and the split is the greedy one. *)
Lemma span_sound (p : ascii -> bool) (s a b : string) :
  span p s = (a, b) ->
  s = a +:+ b /\ all_chars p a = true
  /\ (forall c r, b = String c r -> p c = false).
Proof.
  revert a b. induction s as [|c s IH]; intros a b H; simpl in H.
  - inversion H; subst. repeat split. intros c r Hc. discriminate.
  - destruct (p c) eqn:Hp.
    + destruct (span p s) as [a' b'] eqn:Hs. inversion H; subst.
      destruct (IH a' b eq_refl) as (-> & Ha & Hb).
      repeat split; [simpl; rewrite Hp; exact Ha | exact Hb].
    + inversion H; subst. repeat split.
      intros c' r Hc. inversion Hc; subst. exact Hp.
Qed.

Lemma span_app (p : ascii -> bool) (a b : string) :
  all_chars p a = true ->
  (forall c r, b = String c r -> p c = false) ->
  span p (a +:+ b) = (a, b).
Proof.
  intros Ha Hb. induction a as [|c a IH].
  - rewrite app_nil_l. destruct b as [|c r]; [reflexivity|].
    simpl. rewrite (Hb c r eq_refl). reflexivity.
  - simpl in Ha. apply andb_true_iff in Ha as [Hc Ha].
    rewrite app_cons. simpl. rewrite Hc, (IH Ha). reflexivity.
Qed.

Lemma strip_prefix_sound (pre s s' : string) :
  strip_prefix pre s = Some s' -> s = pre +:+ s'.
Proof.
  revert s. induction pre as [|a pre IH]; intros s H; simpl in H.
  - inversion H. reflexivity.
  - destruct s as [|b s]; [discriminate|].
    destruct (Ascii.eqb a b) eqn:E; [|discriminate].
    apply Ascii.eqb_eq in E. subst b.
    rewrite app_cons, (IH _ H). reflexivity.
Qed.

Lemma strip_prefix_app (pre s : string) : strip_prefix pre (pre +:+ s) = Some s.
Proof.
  induction pre as [|a pre IH]; [reflexivity|].
  rewrite app_cons. simpl. rewrite Ascii.eqb_refl. exact IH.
Qed.

(** ** The matcher against the specification's reading *)

Lemma match_group_complete (w d rest : string) :
  spaces w -> digits d -> no_leading_digit rest ->
  match_group (w +:+ d +:+ rest) = Some (w +:+ d, rest).
Proof.
  intros [Hw1 Hw2] [Hd1 Hd2] Hr. unfold match_group.
  rewrite (span_app is_space w (d +:+ rest) Hw2).
  - rewrite Hw1, (span_app is_digit d rest Hd2 Hr), Hd1. reflexivity.
  - intros c r E. destruct d as [|c' d']; [discriminate|].
    rewrite app_cons in E. inversion E; subst.
    simpl in Hd2. apply andb_true_iff in Hd2 as [Hc _].
    apply digit_not_space, Hc.
Qed.

Lemma match_group_sound (s g r : string) :
  match_group s = Some (g, r) ->
  exists w d, spaces w /\ digits d /\ g = w +:+ d /\ s = w +:+ d +:+ r
              /\ no_leading_digit r.
Proof.
  unfold match_group. intros H.
  destruct (span is_space s) as [w s1] eqn:Hs.
  destruct (is_empty w) eqn:Hw; [discriminate|].
  destruct (span is_digit s1) as [d s2] eqn:Hd.
  destruct (is_empty d) eqn:Hde; [discriminate|].
  inversion H; subst.
  apply span_sound in Hs as (-> & Hw2 & _).
  apply span_sound in Hd as (-> & Hd2 & Hr).
  exists w, d. repeat split; assumption.
Qed.

Lemma match_here_complete (s d0 d1 d2 d3 : string) :
  box_match s d0 d1 d2 d3 ->
  exists w0 w1 w2 w3,
    spaces w0 /\ spaces w1 /\ spaces w2 /\ spaces w3
    /\ match_here s = Some (group_text w0 d0 w1 d1 w2 d2 w3 d3).
Proof.
  intros (w0 & w1 & w2 & w3 & rest & -> & H0 & H1 & H2 & H3
          & D0 & D1 & D2 & D3 & Hr).
  exists w0, w1, w2, w3. repeat (split; [assumption|]).
  unfold match_here. rewrite strip_prefix_app.
  assert (nld : forall w d t, spaces w -> digits d ->
                              no_leading_digit (w +:+ d +:+ t)).
  { intros w d t [Hw1 Hw2] _ c r E.
    destruct w as [|c' w']; [discriminate|].
    rewrite app_cons in E. inversion E; subst.
    simpl in Hw2. apply andb_true_iff in Hw2 as [Hc _].
    destruct (is_digit c) eqn:Hdg; [|reflexivity].
    apply digit_not_space in Hdg. congruence. }
  simpl match_groups.
  rewrite (match_group_complete w0 d0 _ H0 D0 (nld _ _ _ H1 D1)).
  rewrite (match_group_complete w1 d1 _ H1 D1 (nld _ _ _ H2 D2)).
  rewrite (match_group_complete w2 d2 _ H2 D2 (nld _ _ _ H3 D3)).
  rewrite (match_group_complete w3 d3 _ H3 D3 Hr).
  reflexivity.
Qed.

Lemma match_here_sound (s g : string) :
  match_here s = Some g ->
  exists w0 d0 w1 d1 w2 d2 w3 d3,
    box_match s d0 d1 d2 d3
    /\ spaces w0 /\ spaces w1 /\ spaces w2 /\ spaces w3
    /\ digits d0 /\ digits d1 /\ digits d2 /\ digits d3
    /\ g = group_text w0 d0 w1 d1 w2 d2 w3 d3.
Proof.
  unfold match_here. intros H.
  destruct (strip_prefix "bbox" s) as [s0|] eqn:Hp; [|discriminate].
  apply strip_prefix_sound in Hp. subst s.
  simpl match_groups in H.
  destruct (match_group s0) as [[g0 s1]|] eqn:G0; [|discriminate].
  destruct (match_group s1) as [[g1 s2]|] eqn:G1; [|discriminate].
  destruct (match_group s2) as [[g2 s3]|] eqn:G2; [|discriminate].
  destruct (match_group s3) as [[g3 s4]|] eqn:G3; [|discriminate].
  simpl in H. inversion H; subst g.
  apply match_group_sound in G0 as (w0 & d0 & W0 & D0 & -> & -> & _).
  apply match_group_sound in G1 as (w1 & d1 & W1 & D1 & -> & -> & _).
  apply match_group_sound in G2 as (w2 & d2 & W2 & D2 & -> & -> & _).
  apply match_group_sound in G3 as (w3 & d3 & W3 & D3 & -> & -> & Hr).
  exists w0, d0, w1, d1, w2, d2, w3, d3. split.
  - exists w0, w1, w2, w3, s4.
    split; [reflexivity|]. repeat (split; [assumption|]). exact Hr.
  - repeat (split; [assumption|]). reflexivity.
Qed.

Lemma search_cons (c : ascii) (s : string) :
  boxPattern_search (String c s)
  = match match_here (String c s) with
    | Some g => Some g
    | None => boxPattern_search s
    end.
Proof. reflexivity. Qed.

Lemma search_sound (s g : string) :
  boxPattern_search s = Some g ->
  exists pre s', s = pre +:+ s' /\ match_here s' = Some g.
Proof.
  induction s as [|c s IH]; intros H.
  - discriminate H.
  - rewrite search_cons in H. destruct (match_here (String c s)) eqn:E.
    + inversion H; subst. exists EmptyString, (String c s). auto.
    + destruct (IH H) as (pre & s' & -> & Hm).
      exists (String c pre), s'. auto.
Qed.

Lemma search_leftmost (pre s g : string) :
  match_here s = Some g ->
  (forall pre' s', pre +:+ s = pre' +:+ s' ->
                   (String.length pre' < String.length pre)%nat ->
                   match_here s' = None) ->
  boxPattern_search (pre +:+ s) = Some g.
Proof.
  intros Hm. induction pre as [|c pre IH]; intros Hleft.
  - rewrite app_nil_l. destruct s as [|a s]; [discriminate Hm|].
    rewrite search_cons, Hm. reflexivity.
  - rewrite app_cons, search_cons.
    rewrite (Hleft EmptyString (String c (pre +:+ s)) eq_refl)
      by (simpl; lia).
    apply IH. intros pre' s' E Hlen.
    apply (Hleft (String c pre') s').
    + rewrite !app_cons, E. reflexivity.
    + simpl. lia.
Qed.

Lemma search_none (s : string) :
  (forall pre s', s = pre +:+ s' -> match_here s' = None) ->
  boxPattern_search s = None.
Proof.
  induction s as [|c s IH]; intros H.
  - reflexivity.
  - rewrite search_cons, (H EmptyString (String c s) eq_refl).
    apply IH. intros pre s' E. apply (H (String c pre) s').
    rewrite app_cons, E. reflexivity.
Qed.

(** ** [split] and [int] on the text of a match *)

Lemma split_from_word (d cur r : string) :
  all_chars is_digit d = true ->
  split_from cur (d +:+ r) = split_from (cur +:+ d) r.
Proof.
  revert cur. induction d as [|c d IH]; intros cur H.
  - rewrite app_nil_l, app_nil_r. reflexivity.
  - simpl in H. apply andb_true_iff in H as [Hc Hd].
    rewrite app_cons. simpl. rewrite (digit_not_space c Hc), (IH _ Hd).
    rewrite app_assoc_s. reflexivity.
Qed.

Lemma split_from_blank (w r : string) :
  all_chars is_space w = true ->
  split_from EmptyString (w +:+ r) = split_from EmptyString r.
Proof.
  induction w as [|c w IH]; intros H; [reflexivity|].
  simpl in H. apply andb_true_iff in H as [Hc Hw].
  rewrite app_cons. simpl. rewrite Hc. exact (IH Hw).
Qed.

Lemma split_from_end_of_word (cur w r : string) :
  is_empty cur = false -> spaces w ->
  split_from cur (w +:+ r) = cur :: split_from EmptyString r.
Proof.
  intros Hcur [Hw1 Hw2]. destruct w as [|c w]; [discriminate|].
  simpl in Hw2. apply andb_true_iff in Hw2 as [Hc Hw].
  rewrite app_cons. simpl. rewrite Hc, Hcur, (split_from_blank w r Hw).
  reflexivity.
Qed.

Lemma split_group_text (w0 d0 w1 d1 w2 d2 w3 d3 : string) :
  spaces w0 -> spaces w1 -> spaces w2 -> spaces w3 ->
  digits d0 -> digits d1 -> digits d2 -> digits d3 ->
  split (group_text w0 d0 w1 d1 w2 d2 w3 d3) = [d0; d1; d2; d3].
Proof.
  intros W0 W1 W2 W3 [E0 D0] [E1 D1] [E2 D2] [E3 D3].
  unfold split, group_text. rewrite !app_assoc_s.
  rewrite (split_from_blank w0 _ (proj2 W0)).
  rewrite (split_from_word d0 _ _ D0), app_nil_l.
  rewrite (split_from_end_of_word d0 w1 _ E0 W1).
  rewrite (split_from_word d1 _ _ D1), app_nil_l.
  rewrite (split_from_end_of_word d1 w2 _ E1 W2).
  rewrite (split_from_word d2 _ _ D2), app_nil_l.
  rewrite (split_from_end_of_word d2 w3 _ E2 W3).
  rewrite (split_from_word d3 _ _ D3), app_nil_l.
  simpl. rewrite E3. reflexivity.
Qed.

Lemma int_from_digits (d : string) (acc : Z) :
  all_chars is_digit d = true ->
  int_from acc d
  = Ok (acc * 10 ^ Z.of_nat (String.length d) + decimal_value d).
Proof.
  revert acc. induction d as [|c d IH]; intros acc H.
  - simpl. f_equal. lia.
  - simpl in H. apply andb_true_iff in H as [Hc Hd].
    simpl int_from. rewrite Hc, (IH _ Hd). f_equal.
    simpl String.length. simpl decimal_value.
    rewrite Nat2Z.inj_succ, Z.pow_succ_r by lia. ring.
Qed.

Lemma int_digits (d : string) : digits d -> int d = Ok (decimal_value d).
Proof.
  intros [E D]. unfold int. rewrite E, (int_from_digits d 0 D).
  f_equal.
Qed.

(** A numeral denotes a natural number. *)
Lemma decimal_value_nonneg (d : string) :
  all_chars is_digit d = true -> 0 <= decimal_value d.
Proof.
  induction d as [|c d IH]; intros H; [simpl; lia|].
  simpl in H. apply andb_true_iff in H as [Hc Hd].
  specialize (IH Hd). simpl.
  assert (0 <= digit_value c).
  { unfold is_digit in Hc. apply andb_true_iff in Hc as [H1 _].
    apply N.leb_le in H1. unfold digit_value. lia. }
  assert (0 <= 10 ^ Z.of_nat (String.length d)) by (apply Z.pow_nonneg; lia).
  nia.
Qed.

(** What lines 67 and 68 compute from the text of a match. *)
Lemma coords_of_group_text (w0 d0 w1 d1 w2 d2 w3 d3 : string) :
  spaces w0 -> spaces w1 -> spaces w2 -> spaces w3 ->
  digits d0 -> digits d1 -> digits d2 -> digits d3 ->
  (let coords := split (group_text w0 d0 w1 d1 w2 d2 w3 d3) in
   c0 <- getitem coords 0 ;; x0 <- int c0 ;;
   c1 <- getitem coords 1 ;; y0 <- int c1 ;;
   c2 <- getitem coords 2 ;; x1 <- int c2 ;;
   c3 <- getitem coords 3 ;; y1 <- int c3 ;;
   Ok (x0, y0, x1, y1))
  = Ok (decimal_value d0, decimal_value d1, decimal_value d2, decimal_value d3).
Proof.
  intros W0 W1 W2 W3 D0 D1 D2 D3. cbv zeta.
  rewrite (split_group_text w0 d0 w1 d1 w2 d2 w3 d3) by assumption.
  unfold getitem. simpl nth_error. unfold bind.
  rewrite (int_digits d0 D0), (int_digits d1 D1), (int_digits d2 D2),
    (int_digits d3 D3).
  reflexivity.
Qed.

(** ** The bounding box of an element *)

Lemma element_coordinates_total (element : Element) :
  exists box, element_coordinates element = Ok box.
Proof.
  unfold element_coordinates.
  destruct (attrib element !! "title") as [title|]; [|eauto].
  destruct (boxPattern_search title) as [g|] eqn:Hs; [|eauto].
  apply search_sound in Hs as (pre & s' & _ & Hh).
  apply match_here_sound in Hh
    as (w0 & d0 & w1 & d1 & w2 & d2 & w3 & d3 & _
        & W0 & W1 & W2 & W3 & D0 & D1 & D2 & D3 & ->).
  eexists. apply coords_of_group_text; assumption.
Qed.

(** C2. [element_coordinates] on a title that holds a [bbox] token followed
    by four whitespace-separated decimal integers returns exactly these
    four integers (those of the leftmost such token, when there are
    several); without a [title] key, or when the title has no such match,
    it returns (0,0,0,0); and it raises no error on any element. *)
Theorem C2_element_coordinates_bbox (element : Element) :
  (forall title pre d0 d1 d2 d3,
      attrib element !! "title" = Some title ->
      first_box_match title pre d0 d1 d2 d3 ->
      element_coordinates element
      = Ok (decimal_value d0, decimal_value d1,
            decimal_value d2, decimal_value d3))
  /\ (attrib element !! "title" = None
      \/ (exists title, attrib element !! "title" = Some title
                        /\ no_box_match title) ->
      element_coordinates element = Ok (0, 0, 0, 0))
  /\ exists box, element_coordinates element = Ok box.
Proof.
  split; [|split].
  - intros title pre d0 d1 d2 d3 Ht [(s & -> & Hm) Hleft].
    unfold element_coordinates. rewrite Ht.
    destruct (match_here_complete s d0 d1 d2 d3 Hm)
      as (w0 & w1 & w2 & w3 & W0 & W1 & W2 & W3 & Hh).
    rewrite (search_leftmost pre s _ Hh).
    + destruct Hm
        as (_ & _ & _ & _ & _ & _ & _ & _ & _ & _ & D0 & D1 & D2 & D3 & _).
      apply coords_of_group_text; assumption.
    + intros pre' s' E Hlen.
      destruct (match_here s') as [g|] eqn:Hs'; [|reflexivity].
      apply match_here_sound in Hs'
        as (? & e0 & ? & e1 & ? & e2 & ? & e3 & Hbm & _).
      exfalso. exact (Hleft pre' s' e0 e1 e2 e3 E Hlen Hbm).
  - intros [Hn | (title & Ht & Hno)]; unfold element_coordinates.
    + rewrite Hn. reflexivity.
    + rewrite Ht, search_none; [reflexivity|].
      intros pre s' E.
      destruct (match_here s') as [g|] eqn:Hs'; [|reflexivity].
      apply match_here_sound in Hs'
        as (? & e0 & ? & e1 & ? & e2 & ? & e3 & Hbm & _).
      exfalso. exact (Hno pre s' e0 e1 e2 e3 E Hbm).
  - apply element_coordinates_total.
Qed.

(** The line [Hello] of the examples has the box of its title, also
    with other properties before and after the box, and an element
    without title has the zero box. *)
Lemma C2_element_coordinates_bbox_witness :
  element_coordinates line_hello = Ok (100, 100, 400, 130)
  /\ element_coordinates line_with_properties = Ok (100, 100, 400, 130)
  /\ element_coordinates text_only_page = Ok (0, 0, 0, 0).
Proof.
  split; [|split].
  - apply (proj1 (C2_element_coordinates_bbox line_hello)
             "bbox 100 100 400 130" "" "100" "100" "400" "130").
    + reflexivity.
    + split.
      * exists "bbox 100 100 400 130". split; [reflexivity|].
        exists " ", " ", " ", " ", "".
        repeat split; try reflexivity. intros c r E. discriminate E.
      * intros pre' s' e0 e1 e2 e3 _ Hlen. simpl in Hlen. lia.
  - apply (proj1 (C2_element_coordinates_bbox line_with_properties)
             "id 7; bbox 100 100 400 130; baseline 0 0" "id 7; "
             "100" "100" "400" "130").
    + reflexivity.
    + split.
      * exists "bbox 100 100 400 130; baseline 0 0". split; [reflexivity|].
        exists " ", " ", " ", " ", "; baseline 0 0".
        repeat split; try reflexivity. intros c r E. inversion E. reflexivity.
      * intros pre' s' e0 e1 e2 e3 E Hlen (w0 & w1 & w2 & w3 & rest & -> & _).
        repeat (destruct pre' as [|? pre']; [discriminate E|];
                simpl in Hlen; try lia;
                rewrite app_cons in E; injection E as _ E).
  - apply (proj1 (proj2 (C2_element_coordinates_bbox text_only_page))).
    left. reflexivity.
Defined.

(** ** Facts about the arithmetic and the two loops *)

Lemma bind_Ok_inv {A B : Type} (r : result A) (k : A -> result B) (b : B) :
  bind r k = Ok b -> exists a, r = Ok a /\ k a = Ok b.
Proof.
  destruct r as [a|e]; simpl; intros H; [exists a; auto | discriminate].
Qed.

Lemma bind_Ok {A B : Type} (a : A) (k : A -> result B) : bind (Ok a) k = k a.
Proof. reflexivity. Qed.

Lemma bind_Raise {A B : Type} (e : exn) (k : A -> result B) :
  bind (Raise e) k = Raise e.
Proof. reflexivity. Qed.

(** One step of a computation whose first action has been evaluated. *)
Ltac bind_step := rewrite bind_Ok; cbv beta.

Ltac inv_bind H :=
  let a := fresh "a" in
  let E := fresh "E" in
  apply bind_Ok_inv in H as (a & E & H).

Section ConversionFacts.

Context {FA : FloatArith}.
Variable stringWidth : string -> string -> pyval -> F.

Lemma pydiv_operands (a b v : pyval) :
  pydiv a b = Ok v -> a <> PNone /\ b <> PNone /\ v <> PNone.
Proof.
  unfold pydiv. intros H.
  destruct a as [|x|x], b as [|y|y]; try discriminate H;
    repeat split; try discriminate.
  - destruct (y =? 0); [discriminate H|]. inversion H. discriminate.
  - inv_bind H. inv_bind H. destruct (is_zero a0); [discriminate H|].
    inversion H. discriminate.
  - inv_bind H. inv_bind H. destruct (is_zero a0); [discriminate H|].
    inversion H. discriminate.
  - inv_bind H. inv_bind H. destruct (is_zero a0); [discriminate H|].
    inversion H. discriminate.
Qed.

(** An [ocr_page] division sets the page size only when it is still
    [None]. *)
Lemma use_ocr_page_size (div : Element) (g g' : Geometry) :
  use_ocr_page div g = Ok g' ->
  width g' <> PNone
  /\ (width g <> PNone -> width g' = width g /\ height g' = height g).
Proof.
  unfold use_ocr_page. intros H. inv_bind H.
  destruct a as [[[c0 c1] c2] c3]. inv_bind H. inv_bind H. inv_bind H.
  inversion H; subst g'; clear H. simpl.
  split.
  - apply pydiv_operands in E1. tauto.
  - intros Hw. destruct (width g) eqn:W; [congruence| |];
      inversion E0; subst; simpl; auto.
Qed.

Lemma ocr_page_loop_keeps_size (l : list Element) (g g' : Geometry) :
  width g <> PNone ->
  ocr_page_loop l g = Ok g' ->
  width g' = width g /\ height g' = height g.
Proof.
  intros Hw. induction l as [|div rest IH]; simpl; intros H.
  - inversion H. auto.
  - inv_bind H. destruct (String.eqb a "ocr_page").
    + apply use_ocr_page_size in H as [_ H]. auto.
    + auto.
Qed.

(** The loop stops at the first [ocr_page] division: what follows it is
    never looked at. *)
Lemma ocr_page_loop_first (pre rest : list Element) (p : Element)
  (g : Geometry) :
  Forall (other_class "ocr_page") pre ->
  attrib p !! "class" = Some "ocr_page" ->
  ocr_page_loop (pre ++ p :: rest) g = use_ocr_page p g.
Proof.
  intros Hpre Hp. induction Hpre as [|d pre (c & Hc & Hne) _ IH]; simpl.
  - unfold dict_getitem. rewrite Hp. reflexivity.
  - unfold dict_getitem. rewrite Hc. simpl. rewrite Hne. exact IH.
Qed.

Lemma ocr_page_loop_none (l : list Element) (g : Geometry) :
  Forall (other_class "ocr_page") l -> ocr_page_loop l g = Ok g.
Proof.
  intros Hl. induction Hl as [|d l (c & Hc & Hne) _ IH]; simpl.
  - reflexivity.
  - unfold dict_getitem. rewrite Hc. simpl. rewrite Hne. exact IH.
Qed.

Lemma ocr_page_loop_classless (pre rest : list Element) (d : Element)
  (g : Geometry) :
  Forall (other_class "ocr_page") pre ->
  attrib d !! "class" = None ->
  ocr_page_loop (pre ++ d :: rest) g = Raise KeyError.
Proof.
  intros Hpre Hd. induction Hpre as [|e pre (c & Hc & Hne) _ IH]; simpl.
  - unfold dict_getitem. rewrite Hd. reflexivity.
  - unfold dict_getitem. rewrite Hc. simpl. rewrite Hne. exact IH.
Qed.

(** The text objects of a run are those of the [ocr_line] spans, in
    document order. *)
Lemma draw_lines_objects (g : Geometry) (l : list Element)
  (fontname : string) (fontsize : pyval) (objs : list TextObject) :
  draw_lines stringWidth g l fontname fontsize = Ok objs ->
  Forall2 (fun line obj =>
             draw_line stringWidth g line fontname fontsize = Ok obj)
          (List.filter (has_class "ocr_line") l) objs.
Proof.
  revert objs. induction l as [|line rest IH]; simpl; intros objs H.
  - inversion H. constructor.
  - inv_bind H. unfold dict_getitem in E.
    unfold has_class. destruct (attrib line !! "class") as [c|];
      [|discriminate E].
    inversion E; subst a. destruct (String.eqb c "ocr_line").
    + inv_bind H. inv_bind H. inversion H; subst objs.
      constructor; [exact E0 | apply IH; exact E1].
    + apply IH; exact H.
Qed.

Lemma draw_lines_classless (g : Geometry) (pre rest : list Element)
  (s : Element) (fontname : string) (fontsize : pyval)
  (objs : list TextObject) :
  draw_lines stringWidth g pre fontname fontsize = Ok objs ->
  attrib s !! "class" = None ->
  draw_lines stringWidth g (pre ++ s :: rest) fontname fontsize
  = Raise KeyError.
Proof.
  intros Hpre Hs. revert objs Hpre.
  induction pre as [|line pre IH]; simpl; intros objs H.
  - unfold dict_getitem. rewrite Hs. reflexivity.
  - inv_bind H. rewrite E. simpl. destruct (String.eqb a "ocr_line").
    + inv_bind H. inv_bind H. rewrite E0. simpl.
      rewrite (IH _ E1). reflexivity.
    + apply (IH _ H).
Qed.

Lemma pymul_inch_float (a v : pyval) :
  pymul a inch = Ok v -> exists x, v = PFloat x.
Proof.
  unfold pymul, inch. destruct a as [|z|x]; intros H.
  - discriminate H.
  - inv_bind H. inv_bind H. inversion H. eauto.
  - inv_bind H. inv_bind H. inversion H. eauto.
Qed.

(** The width of a box in points is a float. *)
Lemma box_width_points_float (g : Geometry) (coords : Z * Z * Z * Z)
  (v : pyval) :
  box_width_points g coords = Ok v -> exists x, v = PFloat x.
Proof.
  unfold box_width_points. destruct coords as [[[c0 c1] c2] c3]. intros H.
  do 6 inv_bind H.
  apply pymul_inch_float in E1 as [r ->].
  apply pymul_inch_float in E4 as [l ->].
  simpl in H. inversion H. eauto.
Qed.

(** Line 152 divides by the width of the trimmed text, whatever it is. *)
Lemma text_horiz_scale_zero_width (g : Geometry) (coords : Z * Z * Z * Z)
  (line : Element) (t fontname : string) (fontsize v : pyval) :
  box_width_points g coords = Ok v ->
  text line = Some t ->
  is_zero (stringWidth (rstrip t) fontname fontsize) = true ->
  text_horiz_scale stringWidth g coords line fontname fontsize
  = Raise ZeroDivisionError.
Proof.
  intros Hv Ht Hz. unfold text_horiz_scale. rewrite Hv, Ht.
  destruct (box_width_points_float g coords v Hv) as [x ->].
  rewrite !bind_Ok. cbv beta. unfold pydiv, to_float.
  rewrite !bind_Ok. cbv beta. rewrite Hz. reflexivity.
Qed.

(** An exception in the body of the loop ends the loop. *)
Lemma draw_lines_raise (g : Geometry) (pre rest : list Element)
  (line : Element) (fontname : string) (fontsize : pyval)
  (objs : list TextObject) (e : exn) :
  draw_lines stringWidth g pre fontname fontsize = Ok objs ->
  attrib line !! "class" = Some "ocr_line" ->
  draw_line stringWidth g line fontname fontsize = Raise e ->
  draw_lines stringWidth g (pre ++ line :: rest) fontname fontsize = Raise e.
Proof.
  intros Hpre Hc He. revert objs Hpre.
  induction pre as [|l pre IH]; simpl; intros objs H.
  - unfold dict_getitem. rewrite Hc. simpl. rewrite He. reflexivity.
  - inv_bind H. rewrite E. simpl. destruct (String.eqb a "ocr_line").
    + inv_bind H. inv_bind H. rewrite E0. simpl.
      rewrite (IH _ E1). reflexivity.
    + apply (IH _ H).
Qed.

End ConversionFacts.

(** ** The phases of [to_pdf] *)

Section PhaseFacts.

Context {FA : FloatArith}.
Variable stringWidth : string -> string -> pyval -> F.

Lemma to_pdf_log (self : HocrConverter) (name : string) (im : Image)
  (fontname : string) (fontsize : pyval) :
  fst (to_pdf stringWidth self name im fontname fontsize)
  = fst (resolve_geometry self name im).
Proof.
  unfold to_pdf. destruct (resolve_geometry self name im). reflexivity.
Qed.

Lemma to_pdf_result (self : HocrConverter) (name : string) (im : Image)
  (fontname : string) (fontsize : pyval) :
  snd (to_pdf stringWidth self name im fontname fontsize)
  = (g <- snd (resolve_geometry self name im) ;;
     compose stringWidth self g fontname fontsize).
Proof.
  unfold to_pdf. destruct (resolve_geometry self name im). reflexivity.
Qed.

Lemma divs_loaded (self : HocrConverter) (l : list Element) (d : Element)
  (rest : list Element) :
  divs self = l ++ d :: rest ->
  exists root, hocr self = Some root
               /\ findall root (xmlns self +:+ "div") = l ++ d :: rest.
Proof.
  unfold divs. destruct (hocr self) as [root|]; intros H.
  - exists root. auto.
  - destruct l; discriminate H.
Qed.

Lemma spans_loaded (self : HocrConverter) (l : list Element) (d : Element)
  (rest : list Element) :
  spans self = l ++ d :: rest ->
  exists root, hocr self = Some root
               /\ findall root (xmlns self +:+ "span") = l ++ d :: rest.
Proof.
  unfold spans. destruct (hocr self) as [root|]; intros H.
  - exists root. auto.
  - destruct l; discriminate H.
Qed.

(** With a first [ocr_page] division [p], the geometry is what [p] alone
    gives, and nothing is printed. *)
Lemma resolve_geometry_first_page (self : HocrConverter) (name : string)
  (im : Image) (pre rest : list Element) (p : Element) :
  divs self = pre ++ p :: rest ->
  Forall (other_class "ocr_page") pre ->
  attrib p !! "class" = Some "ocr_page" ->
  resolve_geometry self name im
  = ([], wh <- image_page_size im ;;
         use_ocr_page p {| width := fst wh; height := snd wh;
                           ocr_dpi := (PInt 300, PInt 300) |}).
Proof.
  intros Hd Hpre Hp. apply divs_loaded in Hd as (root & Hr & Hd).
  unfold resolve_geometry. rewrite Hr, Hd.
  destruct (image_page_size im) as [wh|e]; simpl; [|reflexivity].
  rewrite (ocr_page_loop_first pre rest p _ Hpre Hp).
  destruct (use_ocr_page p _) as [g|e] eqn:E; [|reflexivity].
  apply use_ocr_page_size in E as [Hw _].
  destruct (width g); [congruence | reflexivity | reflexivity].
Qed.

(** The page size that the image's own resolution gives is final. *)
Lemma resolve_geometry_image_size (self : HocrConverter) (name : string)
  (im : Image) (w h : pyval) (g : Geometry) :
  image_page_size im = Ok (w, h) -> w <> PNone ->
  snd (resolve_geometry self name im) = Ok g ->
  width g = w /\ height g = h.
Proof.
  intros Hs Hw. unfold resolve_geometry. rewrite Hs. simpl.
  destruct (hocr self) as [root|].
  - destruct (ocr_page_loop _ _) as [g'|e] eqn:E; [|discriminate].
    apply ocr_page_loop_keeps_size in E as [E1 E2]; [|exact Hw].
    simpl in E1, E2. destruct (width g') eqn:W; simpl; intros H.
    + congruence.
    + inversion H; subst g'. rewrite W. auto.
    + inversion H; subst g'. rewrite W. auto.
  - simpl. destruct w; simpl; intros H; [congruence | |];
      inversion H; auto.
Qed.

(** The text objects of a finished run, line by line. *)
Lemma to_pdf_objects (self : HocrConverter) (name : string) (im : Image)
  (fontname : string) (fontsize : pyval) (g : Geometry) (pdf : Pdf) :
  snd (resolve_geometry self name im) = Ok g ->
  snd (to_pdf stringWidth self name im fontname fontsize) = Ok pdf ->
  Forall2 (fun line obj =>
             draw_line stringWidth g line fontname fontsize = Ok obj)
          (ocr_lines self) (texts pdf).
Proof.
  intros Hg H. rewrite to_pdf_result, Hg in H. simpl in H.
  unfold compose in H. do 4 inv_bind H. inv_bind H.
  inversion H; subst pdf; clear H. simpl.
  unfold ocr_lines, spans. destruct (hocr self) as [root|].
  - apply draw_lines_objects. exact E3.
  - inversion E3. constructor.
Qed.

(** Once the geometry and the page are there, [to_pdf] is the loop over
    the spans. *)
Lemma to_pdf_span_loop (self : HocrConverter) (name : string) (im : Image)
  (fontname : string) (fontsize : pyval) (g : Geometry) (pw ph : pyval) :
  snd (resolve_geometry self name im) = Ok g ->
  pymul (width g) inch = Ok pw ->
  pymul (height g) inch = Ok ph ->
  snd (to_pdf stringWidth self name im fontname fontsize)
  = (objs <- draw_lines stringWidth g (spans self) fontname fontsize ;;
     Ok {| pagesize := (pw, ph); image_box := (pw, ph); texts := objs |}).
Proof.
  intros Hg Hpw Hph. rewrite to_pdf_result, Hg. bind_step.
  unfold compose. rewrite Hpw, Hph. rewrite !bind_Ok. cbv beta.
  unfold spans. destruct (hocr self); reflexivity.
Qed.

End PhaseFacts.

(** ** Resolution of the page geometry *)

(** C1. On an image without DPI metadata and a document whose first
    [ocr_page] division has the box (0,0,2550,3300), lines 122 to 124
    divide integers: the page comes out 8 by 11 (not 8.5 by 11.0) and the
    scale factors 318 and 300 (not 300 and 300), whatever the image's
    pixel size. *)
Theorem C1_ocr_page_2550_3300_floor_division :
  forall (FA : FloatArith) (imageFileName : string) (w h : Z),
    resolve_geometry (mkHocrConverter (Some letter_page) "") imageFileName
                     (bare_image w h)
    = ([], Ok {| width := PInt 8; height := PInt 11;
                 ocr_dpi := (PInt 318, PInt 300) |}).
Proof. intros FA imageFileName w h. vm_compute. reflexivity. Qed.

(** C4. When the image carries DPI metadata [(Dx, Dy)] and has [W] by [H]
    pixels, every run of the resolution step that ends ends with the page
    size [(float(W)/Dx, float(H)/Dy)], whatever the document holds; an
    [ocr_page] division only sets the scale factors, from that size; and
    without a document the step ends with that size and the default
    scale factors. *)
Theorem C4_image_dpi_fixes_page_size :
  forall (FA : FloatArith) (self : HocrConverter) (imageFileName : string)
         (im : Image) (Dx Dy w h : pyval),
    im_info_dpi im = Some (Dx, Dy) ->
    (fw <- pyfloat (PInt (fst (im_size im))) ;; pydiv fw Dx) = Ok w ->
    (fh <- pyfloat (PInt (snd (im_size im))) ;; pydiv fh Dy) = Ok h ->
    (forall g, snd (resolve_geometry self imageFileName im) = Ok g ->
               width g = w /\ height g = h)
    /\ (forall pre p rest c0 c1 c2 c3,
           divs self = pre ++ p :: rest ->
           Forall (other_class "ocr_page") pre ->
           attrib p !! "class" = Some "ocr_page" ->
           element_coordinates p = Ok (c0, c1, c2, c3) ->
           snd (resolve_geometry self imageFileName im)
           = (d0 <- pydiv (PInt (c2 - c0)) w ;;
              d1 <- pydiv (PInt (c3 - c1)) h ;;
              Ok {| width := w; height := h; ocr_dpi := (d0, d1) |}))
    /\ (hocr self = None ->
        snd (resolve_geometry self imageFileName im)
        = Ok {| width := w; height := h; ocr_dpi := (PInt 300, PInt 300) |}).
Proof.
  intros FA self name im Dx Dy w h Hdpi Hw Hh.
  assert (Hs : image_page_size im = Ok (w, h)).
  { unfold image_page_size. rewrite Hdpi.
    inv_bind Hw. inv_bind Hh. rewrite E. simpl. rewrite Hw. simpl.
    rewrite E0. simpl. rewrite Hh. reflexivity. }
  assert (Hn : w <> PNone).
  { inv_bind Hw. apply pydiv_operands in Hw. tauto. }
  split; [|split].
  - intros g Hg.
    exact (resolve_geometry_image_size self name im w h g Hs Hn Hg).
  - intros pre p rest c0 c1 c2 c3 Hd Hpre Hp Hc.
    rewrite (resolve_geometry_first_page self name im pre rest p Hd Hpre Hp).
    simpl. rewrite Hs. simpl. unfold use_ocr_page. rewrite Hc. simpl.
    destruct w; [congruence | reflexivity | reflexivity].
  - intros Hno. unfold resolve_geometry. rewrite Hs, Hno. simpl.
    destruct w; [congruence | reflexivity | reflexivity].
Qed.

(** A scan at 300 DPI stays 8.5 by 11 inches over an OCR page of half its
    pixel size, which only sets the scale factors to 150. *)
Lemma C4_image_dpi_fixes_page_size_witness :
  snd (resolve_geometry (FA := binary64)
         (mkHocrConverter (Some half_size_page) "") "scan.png" scan_300dpi)
  = Ok {| width := PDouble 8.5; height := PDouble 11;
          ocr_dpi := (PDouble 150, PDouble 150) |}
  /\ snd (resolve_geometry (FA := binary64)
            (mkHocrConverter None "") "scan.png" scan_300dpi)
     = Ok {| width := PDouble 8.5; height := PDouble 11;
             ocr_dpi := (PInt 300, PInt 300) |}.
Proof.
  pose proof (C4_image_dpi_fixes_page_size binary64) as T.
  split.
  - destruct (T (mkHocrConverter (Some half_size_page) "") "scan.png"
                scan_300dpi (PInt 300) (PInt 300) (PDouble 8.5) (PDouble 11)
                eq_refl eq_refl eq_refl) as (_ & T2 & _).
    rewrite (T2 [] (element "div"
                      [("class", "ocr_page"); ("title", "bbox 0 0 1275 1650")]
                      None [])
                [] 0 0 1275 1650 eq_refl (List.Forall_nil _) eq_refl eq_refl).
    reflexivity.
  - destruct (T (mkHocrConverter None "") "scan.png" scan_300dpi
                (PInt 300) (PInt 300) (PDouble 8.5) (PDouble 11)
                eq_refl eq_refl eq_refl) as (_ & _ & T3).
    exact (T3 eq_refl).
Defined.

(** C5. Without a document and without DPI metadata the page size is the
    image's pixel size over 96 and the scale factors keep their default,
    300: on 960 by 1080 pixels, in doubles, 10.0 by 11.25 inches (720 by
    810 points on the canvas, no text), after the two warnings; and for
    every pixel size [W] by [H], without rounding, [W/96] by [H/96]. *)
Theorem C5_no_hocr_no_dpi_falls_back_to_96 :
  (forall (stringWidth : string -> string -> @pyval binary64 -> float)
          (xmlns imageFileName fontname : string) (fontsize : pyval),
      resolve_geometry (FA := binary64) (mkHocrConverter None xmlns)
                       imageFileName (bare_image 960 1080)
      = ([warn_no_hocr; warn_no_dpi imageFileName],
         Ok {| width := PDouble 10; height := PDouble 11.25;
               ocr_dpi := (PInt 300, PInt 300) |})
      /\ to_pdf (FA := binary64) stringWidth (mkHocrConverter None xmlns)
                imageFileName (bare_image 960 1080) fontname fontsize
         = ([warn_no_hocr; warn_no_dpi imageFileName],
            Ok {| pagesize := (PDouble 720, PDouble 810);
                  image_box := (PDouble 720, PDouble 810);
                  texts := [] |}))
  /\ (forall (xmlns imageFileName : string) (W H : Z),
         resolve_geometry (FA := rational) (mkHocrConverter None xmlns)
                          imageFileName (bare_image W H)
         = ([warn_no_hocr; warn_no_dpi imageFileName],
            Ok {| width := PRational (inject_Z W / 96);
                  height := PRational (inject_Z H / 96);
                  ocr_dpi := (PInt 300, PInt 300) |})).
Proof.
  split.
  - intros sw xmlns name fontname fontsize. split; reflexivity.
  - intros xmlns name W H. reflexivity.
Qed.

(** ** Several [ocr_page] divisions, and elements without a class *)

(** C9, as the code has it.  When the divisions of the document are
    [pre ++ p :: rest], no division of [pre] is an [ocr_page] and [p] is
    one, the geometry is computed from [p] alone, whatever [rest] holds
    (further [ocr_page] divisions, or divisions without a class), the call
    then goes on to compose the page, and nothing is printed: there is no
    warning about further [ocr_page] divisions. *)
Theorem C9_first_ocr_page_only_and_silently :
  forall (FA : FloatArith) (stringWidth : string -> string -> pyval -> F)
         (self : HocrConverter) (imageFileName : string) (im : Image)
         (fontname : string) (fontsize : pyval)
         (pre rest : list Element) (p : Element),
    divs self = pre ++ p :: rest ->
    Forall (other_class "ocr_page") pre ->
    attrib p !! "class" = Some "ocr_page" ->
    to_pdf stringWidth self imageFileName im fontname fontsize
    = ([],
       g <- (wh <- image_page_size im ;;
             use_ocr_page p {| width := fst wh; height := snd wh;
                               ocr_dpi := (PInt 300, PInt 300) |}) ;;
       compose stringWidth self g fontname fontsize).
Proof.
  intros FA sw self name im fontname fontsize pre rest p Hd Hpre Hp.
  unfold to_pdf.
  rewrite (resolve_geometry_first_page self name im pre rest p Hd Hpre Hp).
  reflexivity.
Qed.

(** Of the two pages of [two_pages] the first one decides, silently. *)
Lemma C9_first_ocr_page_only_and_silently_witness :
  to_pdf (FA := binary64) courier (mkHocrConverter (Some two_pages) "")
         "scan.png" scan_300dpi "Courier" (PInt 8)
  = ([], Ok {| pagesize := (PDouble 612, PDouble 792);
               image_box := (PDouble 612, PDouble 792);
               texts := [] |}).
Proof.
  rewrite (C9_first_ocr_page_only_and_silently binary64 courier
             (mkHocrConverter (Some two_pages) "") "scan.png" scan_300dpi
             "Courier" (PInt 8) []
             [element "div"
                [("class", "ocr_page"); ("title", "bbox 0 0 1275 1650")]
                None []]
             (element "div"
                [("class", "ocr_page"); ("title", "bbox 0 0 2550 3300")]
                None [])
             eq_refl (List.Forall_nil _) eq_refl).
  reflexivity.
Defined.

(** C9 as stated fails: a document with two [ocr_page] divisions is
    converted without any warning being printed. *)
Lemma C9_two_pages_no_warning :
  length (ocr_pages (mkHocrConverter (Some two_pages) "")) = 2%nat
  /\ fst (to_pdf (FA := binary64) courier
            (mkHocrConverter (Some two_pages) "")
            "scan.png" scan_300dpi "Courier" (PInt 8)) = []
  /\ exists pdf,
       snd (to_pdf (FA := binary64) courier
              (mkHocrConverter (Some two_pages) "")
              "scan.png" scan_300dpi "Courier" (PInt 8)) = Ok pdf.
Proof.
  split; [|split].
  - reflexivity.
  - reflexivity.
  - eexists. reflexivity.
Qed.

(** C10, as the code has it.  A division without a [class] attribute
    raises [KeyError] when the loop over the divisions reaches it, that
    is when no [ocr_page] division comes before it (and the image's own
    page size was computed); a span without a [class] attribute raises
    [KeyError] when the loop over the spans reaches it, that is when the
    geometry and the page were computed and every span before it was
    drawn or skipped without error. *)
Theorem C10_classless_element_reached_raises_KeyError :
  forall (FA : FloatArith) (stringWidth : string -> string -> pyval -> F)
         (self : HocrConverter) (imageFileName : string) (im : Image)
         (fontname : string) (fontsize : pyval),
    (forall pre d rest wh,
        image_page_size im = Ok wh ->
        divs self = pre ++ d :: rest ->
        Forall (other_class "ocr_page") pre ->
        attrib d !! "class" = None ->
        snd (to_pdf stringWidth self imageFileName im fontname fontsize)
        = Raise KeyError)
    /\ (forall g pw ph pre s rest objs,
           snd (resolve_geometry self imageFileName im) = Ok g ->
           pymul (width g) inch = Ok pw ->
           pymul (height g) inch = Ok ph ->
           spans self = pre ++ s :: rest ->
           draw_lines stringWidth g pre fontname fontsize = Ok objs ->
           attrib s !! "class" = None ->
           snd (to_pdf stringWidth self imageFileName im fontname fontsize)
           = Raise KeyError).
Proof.
  intros FA sw self name im fontname fontsize. split.
  - intros pre d rest wh Hs Hd Hpre Hc.
    apply divs_loaded in Hd as (root & Hr & Hd).
    rewrite to_pdf_result. unfold resolve_geometry.
    rewrite Hs, Hr, Hd. simpl.
    rewrite (ocr_page_loop_classless pre rest d _ Hpre Hc). reflexivity.
  - intros g pw ph pre s rest objs Hg Hpw Hph Hsp Hpre Hc.
    apply spans_loaded in Hsp as (root & Hr & Hsp).
    rewrite to_pdf_result, Hg. simpl. unfold compose.
    rewrite Hpw, Hph, Hr, Hsp. simpl.
    rewrite (draw_lines_classless sw g pre rest s _ _ objs Hpre Hc).
    reflexivity.
Qed.

(** A division without class that comes first, and a span without class
    after a line that is drawn. *)
Lemma C10_classless_element_reached_raises_KeyError_witness :
  snd (to_pdf (FA := binary64) courier
         (mkHocrConverter (Some classless_div_first) "")
         "scan.png" scan_300dpi "Courier" (PInt 8)) = Raise KeyError
  /\ snd (to_pdf (FA := binary64) courier
            (mkHocrConverter (Some classless_span) "")
            "scan.png" scan_300dpi "Courier" (PInt 8)) = Raise KeyError.
Proof.
  split.
  - apply (proj1 (C10_classless_element_reached_raises_KeyError binary64
                    courier (mkHocrConverter (Some classless_div_first) "")
                    "scan.png" scan_300dpi "Courier" (PInt 8))
             [] (element "div" [] None [])
             [element "div"
                [("class", "ocr_page"); ("title", "bbox 0 0 2550 3300")]
                None []]
             (PDouble 8.5, PDouble 11)).
    + reflexivity.
    + reflexivity.
    + constructor.
    + reflexivity.
  - apply (proj2 (C10_classless_element_reached_raises_KeyError binary64
                    courier (mkHocrConverter (Some classless_span) "")
                    "scan.png" scan_300dpi "Courier" (PInt 8))
             {| width := PDouble 8.5; height := PDouble 11;
                ocr_dpi := (PInt 300, PInt 300) |}
             (PDouble 612) (PDouble 792)
             [line_hello] (element "span" [] (Some "x") []) []
             [{| font := ("Courier", PInt 8); render_mode := 3;
                 origin := (PDouble 24, PDouble 0x1.7c66666666666p+9);
                 horiz_scale := PDouble 300; line_text := "Hello" |}]).
    + reflexivity.
    + reflexivity.
    + reflexivity.
    + reflexivity.
    + reflexivity.
    + reflexivity.
Defined.

(** C10 as stated fails: a document with a division that has no [class]
    attribute, placed after the [ocr_page] division, is converted without
    error. *)
Lemma C10_classless_div_after_page_converts :
  (exists d, In d (divs (mkHocrConverter (Some classless_div_after_page) ""))
             /\ attrib d !! "class" = None)
  /\ exists pdf,
       snd (to_pdf (FA := binary64) courier
              (mkHocrConverter (Some classless_div_after_page) "")
              "scan.png" scan_300dpi "Courier" (PInt 8)) = Ok pdf.
Proof.
  split.
  - exists (element "div" [] None []). split.
    + right. left. reflexivity.
    + reflexivity.
  - eexists. reflexivity.
Qed.

(** ** Plain-text extraction *)

Lemma concat_empty_sep (l : list string) :
  String.concat EmptyString l = fold_right String.append EmptyString l.
Proof.
  induction l as [|x l IH]; [reflexivity|].
  destruct l as [|y l].
  - simpl. rewrite app_nil_r. reflexivity.
  - change (String.concat EmptyString (x :: y :: l))
      with (x +:+ EmptyString +:+ String.concat EmptyString (y :: l)).
    rewrite IH, app_nil_l. reflexivity.
Qed.

Lemma fold_right_app_s (l1 l2 : list string) :
  fold_right String.append EmptyString (l1 ++ l2)
  = fold_right String.append EmptyString l1
    +:+ fold_right String.append EmptyString l2.
Proof.
  induction l1 as [|x l1 IH]; [reflexivity|].
  simpl. rewrite IH, app_assoc_s. reflexivity.
Qed.

(** The recursion of [_get_element_text] is the specification's rule. *)
Lemma get_element_text_spec (element : Element) :
  _get_element_text element = spec_element_text element.
Proof.
  induction element as [element IH] using Element_children_ind.
  destruct element as [t a tx tl cs]. simpl in IH.
  change (_get_element_text (mkElement t a tx tl cs))
    with (or_empty tx
          +:+ fold_right (fun child acc => _get_element_text child +:+ acc)
                         EmptyString cs
          +:+ or_empty tl).
  change (spec_element_text (mkElement t a tx tl cs))
    with (String.concat EmptyString
            ([or_empty tx] ++ map spec_element_text cs ++ [or_empty tl])).
  rewrite concat_empty_sep, !fold_right_app_s. simpl.
  rewrite !app_nil_r. f_equal. f_equal.
  induction IH as [|c cs Hc _ IHcs]; [reflexivity|].
  simpl. rewrite Hc, IHcs. reflexivity.
Qed.

(** C3.  [__str__] returns the specification's text whenever the [body]
    element has at least one child element, and the empty string without
    a document or without a [body] element; but a [body] element that has
    no child element tests false at line 40, so its text is dropped: on
    the document [<html><body>Hello</body></html>], where the
    specification's rule gives [Hello], [__str__] returns the empty
    string. *)
Theorem C3_str_drops_body_without_child_elements :
  (forall self : HocrConverter,
      __str__ self
      = match hocr self with
        | None => EmptyString
        | Some root =>
            match find root (xmlns self +:+ "body") with
            | Some body =>
                if element_bool body then spec_extractText self
                else EmptyString
            | None => EmptyString
            end
        end)
  /\ find text_only_page "body" = Some (element "body" [] (Some "Hello") [])
  /\ spec_extractText (mkHocrConverter (Some text_only_page) "") = "Hello"
  /\ __str__ (mkHocrConverter (Some text_only_page) "") = "".
Proof.
  split; [|repeat split].
  intros self. unfold __str__, spec_extractText.
  destruct (hocr self) as [root|]; [|reflexivity].
  destruct (find root (xmlns self +:+ "body")) as [body|]; [|reflexivity].
  rewrite get_element_text_spec. reflexivity.
Qed.

(** ** The text layer without rounding *)

Section RationalFacts.

Local Open Scope Q_scope.

Variable stringWidth : string -> string -> @pyval rational -> Q.







End RationalFacts.

(** ** The text layer *)






(** C8.  In doubles, with a font that gives the empty string the width
    zero: for every line whose text is blank (its trimmed text is empty)
    and whose box width is computed, the division of line 152 raises
    [ZeroDivisionError]; and on the scan at 300 DPI with a document of
    one such line, the origin of the line is computed, the horizontal
    scale is not, and [to_pdf] ends with that exception. *)
Theorem C8_blank_line_divides_by_zero :
  forall (stringWidth : string -> string -> @pyval binary64 -> float)
         (fontname : string) (fontsize : @pyval binary64),
    @is_zero binary64 (stringWidth "" fontname fontsize) = true ->
    (forall (g : @Geometry binary64) box line t v,
        text line = Some t ->
        rstrip t = "" ->
        box_width_points g box = Ok v ->
        text_horiz_scale stringWidth g box line fontname fontsize
        = Raise ZeroDivisionError)
    /\ (let self := mkHocrConverter (Some blank_line_page) "" in
        exists line g,
          ocr_lines self = [line]
          /\ option_map rstrip (text line) = Some ""
          /\ snd (resolve_geometry self "scan.png" scan_300dpi) = Ok g
          /\ element_coordinates line = Ok (100, 100, 400, 130)
          /\ (exists o, text_origin g (100, 100, 400, 130) = Ok o)
          /\ text_horiz_scale stringWidth g (100, 100, 400, 130) line
                              fontname fontsize
             = Raise ZeroDivisionError
          /\ snd (to_pdf stringWidth self "scan.png" scan_300dpi
                    fontname fontsize)
             = Raise ZeroDivisionError).
Proof.
  intros sw fontname fontsize Hz.
  assert (General : forall (g : @Geometry binary64) box line t v,
             text line = Some t -> rstrip t = "" ->
             box_width_points g box = Ok v ->
             text_horiz_scale sw g box line fontname fontsize
             = Raise ZeroDivisionError).
  { intros g box line t v Ht Hr Hv.
    apply (text_horiz_scale_zero_width sw g box line t fontname fontsize v
             Hv Ht).
    rewrite Hr. exact Hz. }
  split; [exact General|].
  intros self.
  set (line := element "span"
                 [("class", "ocr_line"); ("title", "bbox 100 100 400 130")]
                 (Some " ") []).
  set (g := {| width := PDouble 8.5; height := PDouble 11;
               ocr_dpi := (PInt 300, PInt 300) |}).
  assert (Hscale : text_horiz_scale sw g (100, 100, 400, 130) line
                     fontname fontsize = Raise ZeroDivisionError).
  { destruct (box_width_points g (100, 100, 400, 130)) as [v|] eqn:Hv;
      [|discriminate Hv].
    exact (General g _ line " " v eq_refl eq_refl Hv). }
  assert (Hgeom : snd (resolve_geometry self "scan.png" scan_300dpi) = Ok g)
    by reflexivity.
  exists line, g.
  split; [reflexivity|]. split; [reflexivity|]. split; [exact Hgeom|].
  split; [reflexivity|]. split; [eexists; reflexivity|].
  split; [exact Hscale|].
  rewrite (to_pdf_span_loop sw self "scan.png" scan_300dpi fontname fontsize
             g (PDouble 612) (PDouble 792) Hgeom eq_refl eq_refl).
  change (spans self) with ([] ++ line :: []).
  rewrite (draw_lines_raise sw g [] [] line fontname fontsize []
             ZeroDivisionError eq_refl eq_refl); [reflexivity|].
  unfold draw_line.
  change (element_coordinates line)
    with (@Ok (Z * Z * Z * Z) (100, 100, 400, 130)).
  bind_step.
  destruct (text_origin g (100, 100, 400, 130)) as [o|] eqn:Ho;
    [|discriminate Ho].
  bind_step. rewrite Hscale. reflexivity.
Qed.

(** With the fixed-pitch metric, whose empty string is 0 wide. *)
Lemma C8_blank_line_divides_by_zero_witness :
  snd (to_pdf (FA := binary64) courier
         (mkHocrConverter (Some blank_line_page) "") "scan.png" scan_300dpi
         "Courier" (PInt 8))
  = Raise ZeroDivisionError.
Proof.
  destruct (proj2 (C8_blank_line_divides_by_zero
                     (@courier binary64) "Courier" (PInt 8) eq_refl))
    as (line & g & _ & _ & _ & _ & _ & _ & H).
  exact H.
Defined.

(** ** Two further properties of the text layer *)

(** The end-to-end example in doubles.  On a scan of 2550 by 3300 pixels
    at 300 DPI and the two-line document, nothing is printed and the page
    of 612 by 792 points carries two text objects in the invisible render
    mode 3, with the trimmed texts and origins at the same horizontal
    position, the first line's origin above the second's. *)
Theorem end_to_end_two_lines_in_doubles :
  exists ya yb sa sb,
    to_pdf (FA := binary64) courier (mkHocrConverter (Some letter_page) "")
           "scan.png" scan_300dpi "Courier" (PInt 8)
    = ([], Ok {| pagesize := (PDouble 612, PDouble 792);
                 image_box := (PDouble 612, PDouble 792);
                 texts :=
                   [{| font := ("Courier", PInt 8); render_mode := 3;
                       origin := (PDouble 24, PDouble ya);
                       horiz_scale := PDouble sa; line_text := "Hello" |};
                    {| font := ("Courier", PInt 8); render_mode := 3;
                       origin := (PDouble 24, PDouble yb);
                       horiz_scale := PDouble sb;
                       line_text := "World, Test" |}] |})
    /\ PrimFloat.ltb yb ya = true
    /\ PrimFloat.ltb ya 792 = true
    /\ sa = 300%float.
Proof.
  do 4 eexists. split; [reflexivity|]. repeat split; reflexivity.
Qed.



(** ** The namespace of a document *)

Lemma dots_then_cons (lit : string) (c : ascii) (s : string) :
  dots_then lit (String c s)
  = if is_dot c then
      match dots_then lit s with
      | Some p => Some (String c p)
      | None =>
          match strip_prefix lit (String c s) with
          | Some _ => Some EmptyString
          | None => None
          end
      end
    else
      match strip_prefix lit (String c s) with
      | Some _ => Some EmptyString
      | None => None
      end.
Proof. reflexivity. Qed.

Lemma dots_then_sound (lit s p : string) :
  dots_then lit s = Some p ->
  all_chars is_dot p = true /\ exists rest, s = p +:+ lit +:+ rest.
Proof.
  revert p. induction s as [|c s IH]; intros p H.
  - simpl in H. destruct (strip_prefix lit EmptyString) as [r|] eqn:E;
      [|discriminate H].
    inversion H; subst p. split; [reflexivity|].
    exists r. rewrite app_nil_l. exact (strip_prefix_sound _ _ _ E).
  - rewrite dots_then_cons in H.
    assert (Here : match strip_prefix lit (String c s) with
                   | Some _ => Some EmptyString
                   | None => None
                   end = Some p ->
                   all_chars is_dot p = true
                   /\ exists rest, String c s = p +:+ lit +:+ rest).
    { destruct (strip_prefix lit (String c s)) as [r|] eqn:E;
        [|discriminate].
      intros Hp. inversion Hp; subst p. split; [reflexivity|].
      exists r. rewrite app_nil_l. exact (strip_prefix_sound _ _ _ E). }
    destruct (is_dot c) eqn:Hc; [|exact (Here H)].
    destruct (dots_then lit s) as [q|] eqn:Hq; [|exact (Here H)].
    inversion H; subst p. destruct (IH q eq_refl) as (Hd & rest & ->).
    split; [simpl; rewrite Hc; exact Hd|].
    exists rest. reflexivity.
Qed.

Lemma dots_then_complete (lit p rest : string) :
  all_chars is_dot p = true ->
  exists q, dots_then lit (p +:+ lit +:+ rest) = Some q.
Proof.
  induction p as [|c p IH]; intros Hp.
  - rewrite app_nil_l.
    assert (Hs : strip_prefix lit (lit +:+ rest) = Some rest)
      by apply strip_prefix_app.
    destruct (lit +:+ rest) as [|c s] eqn:E.
    + simpl. rewrite Hs. eauto.
    + rewrite dots_then_cons, Hs.
      destruct (is_dot c); [|eauto]. destruct (dots_then lit s); eauto.
  - simpl in Hp. apply andb_true_iff in Hp as [Hc Hp].
    destruct (IH Hp) as [q Hq].
    rewrite app_cons, dots_then_cons, Hc, Hq. eauto.
Qed.

Lemma dots_then_longest (lit s p : string) :
  dots_then lit s = Some p ->
  forall p' rest', s = p' +:+ lit +:+ rest' ->
                   all_chars is_dot p' = true ->
                   (String.length p' <= String.length p)%nat.
Proof.
  revert p. induction s as [|c s IH]; intros p H p' rest' E Hp'.
  - destruct p' as [|c' p']; [simpl; lia | discriminate E].
  - destruct p' as [|c' p']; [simpl; lia|].
    rewrite app_cons in E. inversion E; subst c' s.
    simpl in Hp'. apply andb_true_iff in Hp' as [Hc Hp'].
    rewrite dots_then_cons, Hc in H.
    destruct (dots_then_complete lit p' rest' Hp') as [q Hq].
    rewrite Hq in H. inversion H; subst p.
    specialize (IH q Hq p' rest' eq_refl Hp'). simpl. lia.
Qed.

Lemma dots_then_whole (U : string) :
  all_chars is_dot U = true -> dots_then "}html" (U +:+ "}html") = Some U.
Proof.
  induction U as [|c U IH]; intros H; [reflexivity|].
  simpl in H. apply andb_true_iff in H as [Hc HU].
  rewrite app_cons, dots_then_cons, Hc, (IH HU). reflexivity.
Qed.

Lemma parse_hocr_braced (root : Element) (U : string) :
  all_chars is_dot U = true ->
  tag root = "{" +:+ U +:+ "}html" ->
  parse_hocr root = {| hocr := Some root; xmlns := "{" +:+ U +:+ "}" |}.
Proof.
  intros HU Ht. unfold parse_hocr, xmlns_match. rewrite Ht.
  rewrite app_cons, app_nil_l. rewrite Ascii.eqb_refl.
  rewrite (dots_then_whole U HU). reflexivity.
Qed.

(** The namespace that [parse_hocr] infers.  On a root tag [{U}html]
    (no newline in [U]) the prefix is [{U}], whatever [U] holds; on a root
    tag that does not start with a brace it is empty; and a prefix that is
    not empty is [{p}] for the longest [p] without newline such that the
    root tag starts with [{p}html]: the tag may go on after [html]. *)
Theorem parse_hocr_infers_namespace :
  (forall root U,
      all_chars is_dot U = true ->
      tag root = "{" +:+ U +:+ "}html" ->
      parse_hocr root = {| hocr := Some root; xmlns := "{" +:+ U +:+ "}" |})
  /\ (forall root,
         (forall s, tag root <> String "{" s) ->
         parse_hocr root = {| hocr := Some root; xmlns := EmptyString |})
  /\ (forall root,
         xmlns (parse_hocr root) = EmptyString
         \/ exists p rest,
              tag root = "{" +:+ p +:+ "}html" +:+ rest
              /\ xmlns (parse_hocr root) = "{" +:+ p +:+ "}"
              /\ all_chars is_dot p = true
              /\ forall p' rest',
                   tag root = "{" +:+ p' +:+ "}html" +:+ rest' ->
                   all_chars is_dot p' = true ->
                   (String.length p' <= String.length p)%nat).
Proof.
  split; [|split].
  - exact parse_hocr_braced.
  - intros root Hn. unfold parse_hocr, xmlns_match.
    destruct (tag root) as [|c s] eqn:Ht; [reflexivity|].
    destruct (Ascii.eqb c "{") eqn:Hc; [|reflexivity].
    apply Ascii.eqb_eq in Hc. subst c. exfalso. exact (Hn s eq_refl).
  - intros root. unfold parse_hocr, xmlns_match. simpl xmlns.
    destruct (tag root) as [|c s] eqn:Ht; [left; reflexivity|].
    destruct (Ascii.eqb c "{") eqn:Hc; [|left; reflexivity].
    apply Ascii.eqb_eq in Hc. subst c.
    destruct (dots_then "}html" s) as [p|] eqn:Hp; [|left; reflexivity].
    right. destruct (dots_then_sound _ _ _ Hp) as (Hd & rest & ->).
    exists p, rest. split; [reflexivity|]. split; [reflexivity|].
    split; [exact Hd|].
    intros p' rest' E Hd'. rewrite !app_cons, !app_nil_l in E.
    inversion E as [E'].
    exact (dots_then_longest _ _ _ Hp p' rest' E' Hd').
Qed.

(** ** A document in a namespace *)


Lemma iter_eq (element : Element) :
  iter element = element :: flat_map iter (getchildren element).
Proof. destruct element. reflexivity. Qed.

Lemma get_element_text_eq (element : Element) :
  _get_element_text element
  = or_empty (text element)
    +:+ fold_right (fun child acc => _get_element_text child +:+ acc)
                   EmptyString (getchildren element)
    +:+ or_empty (tail element).
Proof. destruct element. reflexivity. Qed.








Section NamespaceFacts.

Context {FA : FloatArith}.
Variable stringWidth : string -> string -> pyval -> F.








End NamespaceFacts.




(** ** Numbers only, and the exceptions of [to_pdf] *)

Section InvariantFacts.

Context {FA : FloatArith}.

Lemma fine_bind {A B : Type} (P : A -> Prop) (Q : B -> Prop)
  (r : result A) (k : A -> result B) :
  fine P r -> (forall a, P a -> fine Q (k a)) -> fine Q (bind r k).
Proof. destruct r as [a|e]; simpl; auto. Qed.

Lemma fine_weaken {A : Type} (P Q : A -> Prop) (r : result A) :
  fine P r -> (forall a, P a -> Q a) -> fine Q r.
Proof. destruct r as [a|e]; simpl; auto. Qed.

Lemma to_float_fine (v : pyval) :
  number v -> fine (fun _ => True) (to_float v).
Proof.
  unfold number, to_float. destruct v as [|z|x]; intros H.
  - congruence.
  - destruct (int_fits z); simpl; unfold to_pdf_error; auto 6.
  - simpl. auto.
Qed.

Lemma pyfloat_fine (v : pyval) : number v -> fine number (pyfloat v).
Proof.
  intros H. unfold pyfloat.
  apply (fine_bind (fun _ => True)); [exact (to_float_fine v H)|].
  intros x _. simpl. discriminate.
Qed.

Lemma pydiv_fine (a b : pyval) :
  number a -> number b -> fine number (pydiv a b).
Proof.
  unfold number, pydiv. intros Ha Hb.
  destruct a as [|x|x]; [congruence| |];
    (destruct b as [|y|y]; [congruence| |]).
  - destruct (y =? 0); simpl; [unfold to_pdf_error; auto 6 | discriminate].
  - apply (fine_bind (fun _ => True)); [apply to_float_fine; discriminate|].
    intros u _.
    apply (fine_bind (fun _ => True)); [apply to_float_fine; discriminate|].
    intros v _. destruct (is_zero v); simpl;
      [unfold to_pdf_error; auto 6 | discriminate].
  - apply (fine_bind (fun _ => True)); [apply to_float_fine; discriminate|].
    intros u _.
    apply (fine_bind (fun _ => True)); [apply to_float_fine; discriminate|].
    intros v _. destruct (is_zero v); simpl;
      [unfold to_pdf_error; auto 6 | discriminate].
  - apply (fine_bind (fun _ => True)); [apply to_float_fine; discriminate|].
    intros u _.
    apply (fine_bind (fun _ => True)); [apply to_float_fine; discriminate|].
    intros v _. destruct (is_zero v); simpl;
      [unfold to_pdf_error; auto 6 | discriminate].
Qed.

Lemma pymul_fine (a b : pyval) :
  number a -> number b -> fine number (pymul a b).
Proof.
  unfold number, pymul. intros Ha Hb.
  destruct a as [|x|x]; [congruence| |];
    (destruct b as [|y|y]; [congruence| |]);
    try (simpl; discriminate);
    (apply (fine_bind (fun _ => True)); [apply to_float_fine; discriminate|];
     intros u _;
     apply (fine_bind (fun _ => True)); [apply to_float_fine; discriminate|];
     intros v _; simpl; discriminate).
Qed.

Lemma pysub_fine (a b : pyval) :
  number a -> number b -> fine number (pysub a b).
Proof.
  unfold number, pysub. intros Ha Hb.
  destruct a as [|x|x]; [congruence| |];
    (destruct b as [|y|y]; [congruence| |]);
    try (simpl; discriminate);
    (apply (fine_bind (fun _ => True)); [apply to_float_fine; discriminate|];
     intros u _;
     apply (fine_bind (fun _ => True)); [apply to_float_fine; discriminate|];
     intros v _; simpl; discriminate).
Qed.

Lemma inch_number : number inch.
Proof. unfold number, inch. discriminate. Qed.

Lemma PInt_number (z : Z) : number (PInt z).
Proof. unfold number. discriminate. Qed.

Lemma element_coordinates_fine (element : Element) :
  fine (fun _ => True) (element_coordinates element).
Proof.
  destruct (element_coordinates_total element) as [box ->]. simpl. auto.
Qed.

(** The page size of the image is two numbers or both [None]. *)
Lemma image_page_size_fine (im : Image) :
  (forall d0 d1, im_info_dpi im = Some (d0, d1) -> number d0 /\ number d1) ->
  fine (fun wh => (fst wh = PNone /\ snd wh = PNone)
                  \/ (number (fst wh) /\ number (snd wh)))
       (image_page_size im).
Proof.
  intros Hdpi. unfold image_page_size.
  destruct (im_info_dpi im) as [[d0 d1]|]; [|simpl; auto].
  destruct (Hdpi d0 d1 eq_refl) as [H0 H1].
  apply (fine_bind number); [apply pyfloat_fine, PInt_number|]. intros fw Hfw.
  apply (fine_bind number); [apply pydiv_fine; assumption|]. intros w Hw.
  apply (fine_bind number); [apply pyfloat_fine, PInt_number|]. intros fh Hfh.
  apply (fine_bind number); [apply pydiv_fine; assumption|]. intros h Hh.
  simpl. auto.
Qed.

Lemma use_ocr_page_fine (div : Element) (g : Geometry) :
  (number (width g) -> number (height g)) ->
  fine resolved (use_ocr_page div g).
Proof.
  intros Hg. unfold use_ocr_page.
  apply (fine_bind (fun _ => True)); [apply element_coordinates_fine|].
  intros [[[c0 c1] c2] c3] _.
  apply (fine_bind (fun wh => number (fst wh) /\ number (snd wh))).
  - destruct (width g) eqn:W.
    + apply (fine_bind number); [apply pydiv_fine; apply PInt_number|].
      intros w Hw.
      apply (fine_bind number); [apply pydiv_fine; apply PInt_number|].
      intros h Hh. simpl. auto.
    + simpl. split; [discriminate | apply Hg; discriminate].
    + simpl. split; [discriminate | apply Hg; discriminate].
  - intros [w h] [Hw Hh]. simpl fst in *. simpl snd in *.
    apply (fine_bind number); [apply pydiv_fine; [apply PInt_number|exact Hw]|].
    intros d0 Hd0.
    apply (fine_bind number); [apply pydiv_fine; [apply PInt_number|exact Hh]|].
    intros d1 Hd1. simpl. unfold resolved. simpl. auto.
Qed.

Lemma ocr_page_loop_fine (l : list Element) (g : Geometry) :
  (number (width g) -> number (height g)) ->
  number (fst (ocr_dpi g)) -> number (snd (ocr_dpi g)) ->
  fine (fun g' => (number (width g') -> number (height g'))
                  /\ number (fst (ocr_dpi g')) /\ number (snd (ocr_dpi g')))
       (ocr_page_loop l g).
Proof.
  intros Hg H0 H1. induction l as [|div rest IH]; simpl.
  - auto.
  - unfold dict_getitem. destruct (attrib div !! "class") as [cls|]; simpl;
      [|unfold to_pdf_error; auto 6].
    destruct (String.eqb cls "ocr_page"); [|exact IH].
    apply (fine_weaken resolved); [apply use_ocr_page_fine; exact Hg|].
    unfold resolved. tauto.
Qed.

(** Lines 95 to 132 end with numbers for the page size and the scale
    factors, or with an exception of [to_pdf]. *)
Lemma resolve_geometry_fine (self : HocrConverter) (name : string)
  (im : Image) :
  (forall d0 d1, im_info_dpi im = Some (d0, d1) -> number d0 /\ number d1) ->
  fine resolved (snd (resolve_geometry self name im)).
Proof.
  intros Hdpi. unfold resolve_geometry.
  pose proof (image_page_size_fine im Hdpi) as Hs.
  destruct (image_page_size im) as [[w h]|e]; simpl in Hs; [|exact Hs].
  rewrite bind_Ok. cbv beta. simpl fst. simpl snd.
  set (g0 := {| width := w; height := h; ocr_dpi := (PInt 300, PInt 300) |}).
  assert (Hloop : fine (fun g' => (number (width g') -> number (height g'))
                                  /\ number (fst (ocr_dpi g'))
                                  /\ number (snd (ocr_dpi g')))
                       (match hocr self with
                        | Some root =>
                            ocr_page_loop
                              (findall root (xmlns self +:+ "div")) g0
                        | None => Ok g0
                        end)).
  { assert (Hg0 : number (width g0) -> number (height g0)).
    { simpl. destruct Hs as [[-> _]|[_ Hh]];
        [intros H; exact (False_ind _ (H eq_refl)) | auto]. }
    destruct (hocr self) as [root|].
    - apply ocr_page_loop_fine; [exact Hg0 | apply PInt_number..].
    - simpl. split; [exact Hg0|]. split; apply PInt_number. }
  destruct (match hocr self with
            | Some root => _
            | None => _
            end) as [g|e]; simpl in Hloop; [|exact Hloop].
  destruct Hloop as (Hwh & Hd0 & Hd1).
  destruct (width g) eqn:W; simpl.
  - apply (fine_bind number); [apply pyfloat_fine, PInt_number|]. intros fw Hfw.
    apply (fine_bind number);
      [apply pydiv_fine; [exact Hfw | apply PInt_number]|].
    intros w' Hw'.
    apply (fine_bind number); [apply pyfloat_fine, PInt_number|]. intros fh Hfh.
    apply (fine_bind number);
      [apply pydiv_fine; [exact Hfh | apply PInt_number]|].
    intros h' Hh'. simpl. unfold resolved. simpl. auto.
  - unfold resolved. rewrite W.
    split; [discriminate|]. split; [apply Hwh; discriminate | auto].
  - unfold resolved. rewrite W.
    split; [discriminate|]. split; [apply Hwh; discriminate | auto].
Qed.

Lemma text_origin_fine (g : Geometry) (box : Z * Z * Z * Z) :
  resolved g -> fine (fun _ => True) (text_origin g box).
Proof.
  intros (Hw & Hh & H0 & H1). unfold text_origin.
  destruct box as [[[c0 c1] c2] c3].
  apply (fine_bind number); [apply pyfloat_fine, PInt_number|]. intros f0 Hf0.
  apply (fine_bind number); [apply pydiv_fine; assumption|]. intros q0 Hq0.
  apply (fine_bind number); [apply pymul_fine; [assumption|apply inch_number]|].
  intros x Hx.
  apply (fine_bind number); [apply pymul_fine; [assumption|apply inch_number]|].
  intros top Htop.
  apply (fine_bind number); [apply pyfloat_fine, PInt_number|]. intros f3 Hf3.
  apply (fine_bind number); [apply pydiv_fine; assumption|]. intros q3 Hq3.
  apply (fine_bind number); [apply pymul_fine; [assumption|apply inch_number]|].
  intros down Hdown.
  apply (fine_bind number); [apply pysub_fine; assumption|]. intros y Hy.
  simpl. auto.
Qed.

Lemma box_width_points_fine (g : Geometry) (box : Z * Z * Z * Z) :
  resolved g -> fine number (box_width_points g box).
Proof.
  intros (Hw & Hh & H0 & H1). unfold box_width_points.
  destruct box as [[[c0 c1] c2] c3].
  apply (fine_bind number); [apply pyfloat_fine, PInt_number|]. intros f2 Hf2.
  apply (fine_bind number); [apply pydiv_fine; assumption|]. intros q2 Hq2.
  apply (fine_bind number); [apply pymul_fine; [assumption|apply inch_number]|].
  intros r Hr.
  apply (fine_bind number); [apply pyfloat_fine, PInt_number|]. intros f0 Hf0.
  apply (fine_bind number); [apply pydiv_fine; assumption|]. intros q0 Hq0.
  apply (fine_bind number); [apply pymul_fine; [assumption|apply inch_number]|].
  intros l Hl.
  apply pysub_fine; assumption.
Qed.

Lemma own_text_fine (line : Element) :
  fine (fun _ => True)
       (match text line with
        | Some t => Ok (rstrip t)
        | None => Raise AttributeError
        end).
Proof.
  destruct (text line); simpl; [auto | unfold to_pdf_error; auto 6].
Qed.

Variable stringWidth : string -> string -> pyval -> F.

Lemma text_horiz_scale_fine (g : Geometry) (box : Z * Z * Z * Z)
  (line : Element) (fontname : string) (fontsize : pyval) :
  resolved g ->
  fine number (text_horiz_scale stringWidth g box line fontname fontsize).
Proof.
  intros Hg. unfold text_horiz_scale.
  apply (fine_bind number); [apply box_width_points_fine; exact Hg|].
  intros bw Hbw.
  apply (fine_bind (fun _ => True)); [apply own_text_fine|]. intros t _.
  apply (fine_bind number); [apply pydiv_fine; [exact Hbw|discriminate]|].
  intros ratio Hratio.
  apply pymul_fine; [exact Hratio | apply PInt_number].
Qed.

Lemma draw_lines_fine (g : Geometry) (l : list Element) (fontname : string)
  (fontsize : pyval) :
  resolved g ->
  fine (fun _ => True) (draw_lines stringWidth g l fontname fontsize).
Proof.
  intros Hg. induction l as [|line rest IH]; simpl; [auto|].
  unfold dict_getitem. destruct (attrib line !! "class") as [cls|]; simpl;
    [|unfold to_pdf_error; auto 6].
  destruct (String.eqb cls "ocr_line"); [|exact IH].
  apply (fine_bind (fun _ => True)).
  - unfold draw_line.
    apply (fine_bind (fun _ => True)); [apply element_coordinates_fine|].
    intros box _.
    apply (fine_bind (fun _ => True)); [apply text_origin_fine; exact Hg|].
    intros o _.
    apply (fine_bind number); [apply text_horiz_scale_fine; exact Hg|].
    intros sc _.
    apply (fine_bind (fun _ => True)); [apply own_text_fine|].
    intros t _. simpl. auto.
  - intros obj _. apply (fine_bind (fun _ => True)); [exact IH|].
    intros objs _. simpl. auto.
Qed.

Lemma compose_fine (self : HocrConverter) (g : Geometry) (fontname : string)
  (fontsize : pyval) :
  resolved g ->
  fine (fun _ => True) (compose stringWidth self g fontname fontsize).
Proof.
  intros Hg. pose proof Hg as (Hw & Hh & _). unfold compose.
  apply (fine_bind number); [apply pymul_fine; [assumption|apply inch_number]|].
  intros pw _.
  apply (fine_bind number); [apply pymul_fine; [assumption|apply inch_number]|].
  intros ph _.
  apply (fine_bind number); [apply pymul_fine; [assumption|apply inch_number]|].
  intros iw _.
  apply (fine_bind number); [apply pymul_fine; [assumption|apply inch_number]|].
  intros ih _.
  apply (fine_bind (fun _ => True)).
  - destruct (hocr self); [apply draw_lines_fine; exact Hg | simpl; auto].
  - intros objs _. simpl. auto.
Qed.

End InvariantFacts.

(** [None] never reaches the arithmetic.  For an image whose DPI entry,
    when present, holds numbers: when lines 95 to 132 end normally the
    page width, the page height and both scale factors are numbers; and
    an exception that ends [to_pdf] is a [KeyError], a
    [ZeroDivisionError], an [AttributeError] or an [OverflowError], never
    a [TypeError], a [ValueError] or an [IndexError]. *)
Theorem to_pdf_computes_with_numbers_only :
  forall (FA : FloatArith) (stringWidth : string -> string -> pyval -> F)
         (self : HocrConverter) (imageFileName : string) (im : Image)
         (fontname : string) (fontsize : pyval),
    (forall d0 d1, im_info_dpi im = Some (d0, d1) ->
                   d0 <> PNone /\ d1 <> PNone) ->
    (forall g, snd (resolve_geometry self imageFileName im) = Ok g ->
               width g <> PNone /\ height g <> PNone
               /\ fst (ocr_dpi g) <> PNone /\ snd (ocr_dpi g) <> PNone)
    /\ (forall e,
           snd (to_pdf stringWidth self imageFileName im fontname fontsize)
           = Raise e ->
           (e = KeyError \/ e = ZeroDivisionError \/ e = AttributeError
            \/ e = OverflowError)
           /\ e <> TypeError /\ e <> ValueError /\ e <> IndexError).
Proof.
  intros FA sw self name im fontname fontsize Hdpi.
  pose proof (resolve_geometry_fine self name im Hdpi) as Hr.
  split.
  - intros g Hg. rewrite Hg in Hr. exact Hr.
  - intros e He.
    assert (Hall : fine (fun _ => True)
                     (snd (to_pdf sw self name im fontname fontsize))).
    { rewrite to_pdf_result.
      apply (fine_bind resolved); [exact Hr|].
      intros g Hg. apply compose_fine. exact Hg. }
    rewrite He in Hall. simpl in Hall. split; [exact Hall|].
    unfold to_pdf_error in Hall.
    repeat split; intros ->;
      destruct Hall as [H|[H|[H|H]]]; discriminate H.
Qed.

(** The end-to-end document over the scan. *)
Lemma to_pdf_computes_with_numbers_only_witness :
  (forall g, snd (resolve_geometry (FA := binary64)
                    (mkHocrConverter (Some letter_page) "")
                    "scan.png" scan_300dpi) = Ok g ->
             width g <> PNone /\ height g <> PNone
             /\ fst (ocr_dpi g) <> PNone /\ snd (ocr_dpi g) <> PNone)
  /\ (forall e,
         snd (to_pdf (FA := binary64) courier
                (mkHocrConverter (Some letter_page) "")
                "scan.png" scan_300dpi "Courier" (PInt 8)) = Raise e ->
         (e = KeyError \/ e = ZeroDivisionError \/ e = AttributeError
          \/ e = OverflowError)
         /\ e <> TypeError /\ e <> ValueError /\ e <> IndexError).
Proof.
  apply (to_pdf_computes_with_numbers_only binary64 courier
           (mkHocrConverter (Some letter_page) "") "scan.png" scan_300dpi
           "Courier" (PInt 8)).
  intros d0 d1 E. inversion E. split; discriminate.
Defined.

(** ** Boxes, texts and the text layer *)

(** The coordinates of a box are never negative: on every element
    [element_coordinates] returns four natural numbers (a sign in the
    title is no part of a match). *)
Theorem element_coordinates_are_natural :
  forall element : Element,
    exists x0 y0 x1 y1,
      element_coordinates element = Ok (x0, y0, x1, y1)
      /\ 0 <= x0 /\ 0 <= y0 /\ 0 <= x1 /\ 0 <= y1.
Proof.
  intros element. unfold element_coordinates.
  destruct (attrib element !! "title") as [title|];
    [|exists 0, 0, 0, 0; repeat split; lia].
  destruct (boxPattern_search title) as [g|] eqn:Hs;
    [|exists 0, 0, 0, 0; repeat split; lia].
  apply search_sound in Hs as (pre & s' & _ & Hh).
  apply match_here_sound in Hh
    as (w0 & d0 & w1 & d1 & w2 & d2 & w3 & d3 & _
        & W0 & W1 & W2 & W3 & D0 & D1 & D2 & D3 & ->).
  exists (decimal_value d0), (decimal_value d1), (decimal_value d2),
    (decimal_value d3).
  split; [apply coords_of_group_text; assumption|].
  repeat split; apply decimal_value_nonneg;
    [apply D0 | apply D1 | apply D2 | apply D3].
Qed.

Lemma text_length_of_children (l : list Element) :
  Forall (fun c => String.length (_get_element_text c)
                   = list_sum (map own_text_length (iter c))) l ->
  String.length
    (fold_right (fun child acc => _get_element_text child +:+ acc)
                EmptyString l)
  = list_sum (map own_text_length (flat_map iter l)).
Proof.
  intros H. induction H as [|c l Hc _ IH]; [reflexivity|].
  simpl. rewrite length_app_s, Hc, IH, map_app, list_sum_app. reflexivity.
Qed.

(** Text extraction neither loses nor repeats text: the length of what
    [_get_element_text] returns is the sum, over the element and all its
    descendants, of the lengths of their own text and tail. *)
Theorem get_element_text_conserves_length :
  forall element : Element,
    String.length (_get_element_text element)
    = list_sum (map own_text_length (iter element)).
Proof.
  intros element.
  induction element as [element IH] using Element_children_ind.
  rewrite get_element_text_eq, iter_eq. simpl map. simpl list_sum.
  rewrite !length_app_s, (text_length_of_children _ IH).
  unfold own_text_length. lia.
Qed.

Lemma rstrip_cons (c : ascii) (s : string) :
  rstrip (String c s)
  = if is_empty (rstrip s) && is_space c then EmptyString
    else String c (rstrip s).
Proof. reflexivity. Qed.

(** [rstrip] cuts a run of whitespace off the end. *)
Lemma rstrip_cuts_spaces (s : string) :
  exists w, s = rstrip s +:+ w /\ all_chars is_space w = true.
Proof.
  induction s as [|c s (w & Hs & Hw)].
  - exists EmptyString. auto.
  - rewrite rstrip_cons.
    destruct (is_empty (rstrip s) && is_space c) eqn:E.
    + apply andb_true_iff in E as [Er Ec]. apply is_empty_true in Er.
      rewrite Er, app_nil_l in Hs. subst w.
      exists (String c s). split; [reflexivity|].
      simpl. rewrite Ec. exact Hw.
    + exists w. split; [|exact Hw]. rewrite app_cons, <- Hs. reflexivity.
Qed.

(** And nothing of that run is left. *)
Lemma rstrip_no_trailing_space (s : string) : no_trailing_space (rstrip s).
Proof.
  unfold no_trailing_space. induction s as [|c s IH]; intros p c0 E.
  - destruct p; discriminate E.
  - rewrite rstrip_cons in E.
    destruct (is_empty (rstrip s) && is_space c) eqn:C.
    + destruct p; discriminate E.
    + destruct p as [|c' p].
      * rewrite app_nil_l in E. inversion E as [[Ec Er]]. subst c0.
        rewrite Er in C. simpl in C. exact C.
      * rewrite app_cons in E. inversion E as [[Ec Er]].
        exact (IH p c0 Er).
Qed.

Section LayerFacts.

Context {FA : FloatArith}.
Variable stringWidth : string -> string -> pyval -> F.

Lemma draw_line_object (g : Geometry) (line : Element) (fontname : string)
  (fontsize : pyval) (obj : TextObject) :
  draw_line stringWidth g line fontname fontsize = Ok obj ->
  font obj = (fontname, fontsize) /\ render_mode obj = 3
  /\ option_map rstrip (text line) = Some (line_text obj).
Proof.
  unfold draw_line. intros H. do 4 inv_bind H.
  inversion H; subst obj; clear H. simpl.
  destruct (text line) as [t|]; [|discriminate E2].
  inversion E2. auto.
Qed.

End LayerFacts.

(** The text layer of a finished run.  The image box is the page, whose
    sides are the resolved width and height times [inch]; there is one
    text object for each [ocr_line] span, in document order, and none
    for any other span; each is in the given font and the invisible
    render mode 3, and carries the own text of its span from which
    exactly the whitespace at the end is cut; without a document there
    is no text object. *)
Theorem to_pdf_text_layer :
  forall (FA : FloatArith) (stringWidth : string -> string -> pyval -> F)
         (self : HocrConverter) (imageFileName : string) (im : Image)
         (fontname : string) (fontsize : pyval) (pdf : Pdf),
    snd (to_pdf stringWidth self imageFileName im fontname fontsize)
    = Ok pdf ->
    image_box pdf = pagesize pdf
    /\ (exists g,
           snd (resolve_geometry self imageFileName im) = Ok g
           /\ pymul (width g) inch = Ok (fst (pagesize pdf))
           /\ pymul (height g) inch = Ok (snd (pagesize pdf)))
    /\ Forall2 (fun line obj =>
                  font obj = (fontname, fontsize)
                  /\ render_mode obj = 3
                  /\ no_trailing_space (line_text obj)
                  /\ exists t w,
                       text line = Some t
                       /\ t = line_text obj +:+ w
                       /\ all_chars is_space w = true)
               (ocr_lines self) (texts pdf)
    /\ (hocr self = None -> texts pdf = []).
Proof.
  intros FA sw self name im fontname fontsize pdf H.
  pose proof H as H0. rewrite to_pdf_result in H0.
  destruct (snd (resolve_geometry self name im)) as [g|e] eqn:Hg;
    [|discriminate H0].
  rewrite bind_Ok in H0. unfold compose in H0.
  inv_bind H0. inv_bind H0. inv_bind H0. inv_bind H0. inv_bind H0.
  inversion H0; subst pdf; clear H0. simpl.
  rewrite E in E1. rewrite E0 in E2. inversion E1. inversion E2. subst.
  split; [reflexivity|]. split; [exists g; auto|]. split.
  - pose proof (to_pdf_objects sw self name im fontname fontsize g _ Hg H)
      as Hall. simpl in Hall.
    apply (Forall2_impl _ _ _ _ Hall). intros line obj Hd.
    destruct (draw_line_object sw g line fontname fontsize obj Hd)
      as (Hf & Hm & Ht).
    split; [exact Hf|]. split; [exact Hm|].
    destruct (text line) as [t|]; [|discriminate Ht].
    simpl in Ht. inversion Ht as [Ht'].
    split; [apply rstrip_no_trailing_space|].
    destruct (rstrip_cuts_spaces t) as (w & Hw & Hsp).
    exists t, w. auto.
  - intros Hno. rewrite Hno in E3. inversion E3. reflexivity.
Qed.

(** The end-to-end document over the scan. *)
Lemma to_pdf_text_layer_witness :
  exists pdf,
    snd (to_pdf (FA := binary64) courier
           (mkHocrConverter (Some letter_page) "")
           "scan.png" scan_300dpi "Courier" (PInt 8)) = Ok pdf
    /\ image_box pdf = pagesize pdf
    /\ length (texts pdf) = 2%nat.
Proof.
  eexists. split; [reflexivity|].
  split.
  - exact (proj1 (to_pdf_text_layer binary64 courier
                    (mkHocrConverter (Some letter_page) "")
                    "scan.png" scan_300dpi "Courier" (PInt 8) _ eq_refl)).
  - reflexivity.
Defined.

(** ** What is printed, and the command line *)

Section WarningFacts.

Context {FA : FloatArith}.

(** With the page size still [None], the loop over the divisions leaves
    it so exactly when it goes past every division. *)
Lemma ocr_page_loop_unresolved (l : list Element) (g : Geometry) :
  width g = PNone ->
  if forallb passes_by l then ocr_page_loop l g = Ok g
  else match ocr_page_loop l g with
       | Ok g' => width g' <> PNone
       | Raise _ => True
       end.
Proof.
  intros Hw. induction l as [|d l IH]; [reflexivity|].
  simpl. unfold passes_by at 1, dict_getitem.
  destruct (attrib d !! "class") as [cls|]; simpl; [|exact I].
  destruct (String.eqb cls "ocr_page"); simpl.
  - destruct (use_ocr_page d g) as [g'|e] eqn:E; [|exact I].
    apply use_ocr_page_size in E. tauto.
  - exact IH.
Qed.

(** What lines 95 to 132 print. *)
Lemma resolve_geometry_log (self : HocrConverter) (name : string)
  (im : Image) :
  fst (resolve_geometry self name im)
  = match hocr self with
    | None => [warn_no_hocr]
    | Some _ => []
    end
    ++ match im_info_dpi im with
       | Some _ => []
       | None =>
           if forallb passes_by (divs self) then [warn_no_dpi name] else []
       end.
Proof.
  unfold resolve_geometry, image_page_size, divs.
  destruct (im_info_dpi im) as [[d0 d1]|].
  - rewrite List.app_nil_r.
    destruct (pyfloat (PInt (fst (im_size im)))) as [fw|e]; [|reflexivity].
    rewrite bind_Ok. cbv beta.
    destruct (pydiv fw d0) as [w|e] eqn:Hw; [|reflexivity].
    rewrite bind_Ok. cbv beta.
    destruct (pyfloat (PInt (snd (im_size im)))) as [fh|e]; [|reflexivity].
    rewrite bind_Ok. cbv beta.
    destruct (pydiv fh d1) as [h|e]; [|reflexivity].
    rewrite !bind_Ok. cbv beta. simpl fst. simpl snd.
    apply pydiv_operands in Hw as (_ & _ & Hw).
    destruct (hocr self) as [root|].
    + destruct (ocr_page_loop _ _) as [g|e] eqn:E; [|reflexivity].
      apply ocr_page_loop_keeps_size in E as [E _]; [|exact Hw].
      simpl in E. destruct (width g); [congruence | reflexivity..].
    + simpl. destruct w; [congruence | reflexivity..].
  - rewrite bind_Ok. cbv beta. simpl fst. simpl snd.
    destruct (hocr self) as [root|]; [|reflexivity].
    pose proof (ocr_page_loop_unresolved
                  (findall root (xmlns self +:+ "div"))
                  {| width := PNone; height := PNone;
                     ocr_dpi := (PInt 300, PInt 300) |} eq_refl) as Hl.
    destruct (forallb passes_by (findall root (xmlns self +:+ "div"))).
    + rewrite Hl. reflexivity.
    + destruct (ocr_page_loop _ _) as [g|e]; [|reflexivity].
      destruct (width g); [congruence | reflexivity..].
Qed.

End WarningFacts.

(** The warnings of [to_pdf].  It prints the image-only warning exactly
    when no document is loaded, then the DPI warning exactly when the
    image has no DPI entry and every division of the document has a class
    other than [ocr_page] (as when there is no document or no division),
    and nothing else: a run that finds an [ocr_page] division, or that
    ends on a division without class, does not print the DPI warning. *)
Theorem to_pdf_warnings :
  forall (FA : FloatArith) (stringWidth : string -> string -> pyval -> F)
         (self : HocrConverter) (imageFileName : string) (im : Image)
         (fontname : string) (fontsize : pyval),
    fst (to_pdf stringWidth self imageFileName im fontname fontsize)
    = match hocr self with
      | None => [warn_no_hocr]
      | Some _ => []
      end
      ++ match im_info_dpi im with
         | Some _ => []
         | None =>
             if forallb passes_by (divs self)
             then [warn_no_dpi imageFileName] else []
         end.
Proof.
  intros FA sw self name im fontname fontsize.
  rewrite to_pdf_log. apply resolve_geometry_log.
Qed.

Lemma main_few (FA : FloatArith)
  (stringWidth : string -> string -> pyval -> F)
  (ElementTree_parse : string -> Element) (Image_open : string -> Image)
  (argv : list string) :
  (length argv < 4)%nat ->
  main stringWidth ElementTree_parse Image_open argv = ([usage], Exited 1).
Proof.
  intros H. unfold main.
  destruct (Nat.ltb_spec (length argv) 4); [reflexivity | lia].
Qed.

(** The command line.  With fewer than three arguments after the script
    name the script prints the usage line and exits with status 1; with
    three or more it converts the first with the second, whatever the
    further arguments are, in Courier at 8 points; and since it always
    loads a document, it never prints the image-only warning. *)
Theorem main_checks_the_arguments :
  forall (FA : FloatArith) (stringWidth : string -> string -> pyval -> F)
         (ElementTree_parse : string -> Element)
         (Image_open : string -> Image),
    (forall argv,
        (length argv < 4)%nat ->
        main stringWidth ElementTree_parse Image_open argv
        = ([usage], Exited 1))
    /\ (forall script inputHocrFile inputImageFile outputPdfFile more,
           main stringWidth ElementTree_parse Image_open
                (script :: inputHocrFile :: inputImageFile
                 :: outputPdfFile :: more)
           = (fst (to_pdf stringWidth
                     (parse_hocr (ElementTree_parse inputHocrFile))
                     inputImageFile (Image_open inputImageFile)
                     "Courier" (PInt 8)),
              Finished
                (snd (to_pdf stringWidth
                        (parse_hocr (ElementTree_parse inputHocrFile))
                        inputImageFile (Image_open inputImageFile)
                        "Courier" (PInt 8)))))
    /\ (forall argv,
           ~ In warn_no_hocr
                (fst (main stringWidth ElementTree_parse Image_open argv))).
Proof.
  intros FA sw parse open. split; [|split].
  - intros argv H. apply main_few. exact H.
  - intros script a1 a2 a3 more. unfold main. simpl.
    destruct (to_pdf sw _ a2 (open a2) "Courier" (PInt 8)). reflexivity.
  - intros argv. unfold main.
    destruct (length argv <? 4)%nat.
    + simpl. intros [H|[]]. discriminate H.
    + set (self := __init__ (Some (parse (nth 1 argv EmptyString)))).
      pose proof (to_pdf_log sw self (nth 2 argv EmptyString)
                    (open (nth 2 argv EmptyString)) "Courier" (PInt 8)) as Hl.
      destruct (to_pdf sw self _ _ "Courier" (PInt 8)) as [log r].
      simpl in Hl. simpl fst. rewrite Hl, resolve_geometry_log.
      unfold self. simpl hocr. simpl app.
      destruct (im_info_dpi _); [intros []|].
      destruct (forallb passes_by _); [|intros []].
      intros [H|[]]. discriminate H.
Qed.

(** ** The page division and the placement of the text *)

Lemma div_300_zero (a : Z) : (a / 300 =? 0) = (0 <=? a) && (a <? 300).
Proof.
  destruct (Z.eqb_spec (a / 300) 0) as [E|E].
  - apply Z.div_small_iff in E; [|lia]. symmetry. apply andb_true_iff.
    split; [apply Z.leb_le | apply Z.ltb_lt]; lia.
  - symmetry. apply andb_false_iff.
    destruct (Z.leb_spec 0 a) as [H0|H0]; [|left; reflexivity].
    destruct (Z.ltb_spec a 300) as [H1|H1]; [|right; reflexivity].
    exfalso. apply E. apply Z.div_small. lia.
Qed.

(** The page division over an image without DPI entry.  The page size is
    the extent of the box of the first [ocr_page] division divided by 300
    with integer division, and the scale factors the extent divided by
    that: an extent from 0 to 299 in either direction (as that of a
    division without box) gives a page side of 0 and a
    [ZeroDivisionError]; any other extent gives integers.  Nothing is
    printed, and the pixel size of the image plays no part. *)
Theorem ocr_page_without_image_dpi_divides_integers :
  forall (FA : FloatArith) (self : HocrConverter) (imageFileName : string)
         (W H : Z) (pre rest : list Element) (p : Element) (c0 c1 c2 c3 : Z),
    divs self = pre ++ p :: rest ->
    Forall (other_class "ocr_page") pre ->
    attrib p !! "class" = Some "ocr_page" ->
    element_coordinates p = Ok (c0, c1, c2, c3) ->
    resolve_geometry self imageFileName (bare_image W H)
    = ([],
       if ((0 <=? c2 - c0) && (c2 - c0 <? 300))
          || ((0 <=? c3 - c1) && (c3 - c1 <? 300))
       then Raise ZeroDivisionError
       else Ok {| width := PInt ((c2 - c0) / 300);
                  height := PInt ((c3 - c1) / 300);
                  ocr_dpi := (PInt ((c2 - c0) / ((c2 - c0) / 300)),
                              PInt ((c3 - c1) / ((c3 - c1) / 300))) |}).
Proof.
  intros FA self name W H pre rest p c0 c1 c2 c3 Hd Hpre Hp Hc.
  rewrite (resolve_geometry_first_page self name _ pre rest p Hd Hpre Hp).
  f_equal.
  change (image_page_size (bare_image W H))
    with (Ok (A := pyval * pyval) (PNone, PNone)).
  rewrite bind_Ok. cbv beta. unfold use_ocr_page. rewrite Hc.
  rewrite bind_Ok. cbv beta iota zeta. simpl width.
  set (a := c2 - c0). set (b := c3 - c1).
  rewrite <- (div_300_zero a), <- (div_300_zero b).
  change (pydiv (PInt a) (PInt 300)) with (Ok (PInt (a / 300))).
  change (pydiv (PInt b) (PInt 300)) with (Ok (PInt (b / 300))).
  rewrite !bind_Ok. cbv beta. simpl fst. simpl snd.
  unfold pydiv.
  destruct (a / 300 =? 0); [reflexivity|].
  rewrite bind_Ok. cbv beta.
  destruct (b / 300 =? 0); reflexivity.
Qed.

(** A page division without title gives the zero box, and an exception. *)
Lemma ocr_page_without_image_dpi_divides_integers_witness :
  resolve_geometry (FA := binary64) (mkHocrConverter (Some untitled_page) "")
                   "scan.png" (bare_image 2550 3300)
  = ([], Raise ZeroDivisionError)
  /\ resolve_geometry (FA := binary64)
       (mkHocrConverter (Some half_size_page) "")
       "scan.png" (bare_image 2550 3300)
     = ([], Ok {| width := PInt 4; height := PInt 5;
                  ocr_dpi := (PInt 318, PInt 330) |}).
Proof.
  split.
  - exact (ocr_page_without_image_dpi_divides_integers binary64
             (mkHocrConverter (Some untitled_page) "") "scan.png" 2550 3300
             [] [] (element "div" [("class", "ocr_page")] None [line_hello])
             0 0 0 0 eq_refl (List.Forall_nil _) eq_refl eq_refl).
  - exact (ocr_page_without_image_dpi_divides_integers binary64
             (mkHocrConverter (Some half_size_page) "") "scan.png" 2550 3300
             [] []
             (element "div"
                [("class", "ocr_page"); ("title", "bbox 0 0 1275 1650")]
                None [])
             0 0 1275 1650 eq_refl (List.Forall_nil _) eq_refl eq_refl).
Defined.

Section PlacementFacts.

Local Open Scope Q_scope.

Variable stringWidth : string -> string -> @pyval rational -> Q.







End PlacementFacts.




